(** * nitro-query: the query/mutation execution engine and its cache keys

    A shallow embedding of [src/index.tsx]: the global result cache, the
    cache-key generator and the four hooks [useQuery], [useMutation],
    [useAsync] and [useSuspenseQuery], followed by the properties of the
    execution engine that the specification states about them. *)

From stdpp Require Import gmap strings list pretty.

#[local] Open Scope string_scope.
#[local] Open Scope list_scope.
#[local] Set Warnings "-register-all".

(** ** JavaScript values

    Objects, arrays, errors and functions are heap allocated and carry the
    address [ref] they were allocated at, so that two values can be equal
    by value without being the same object. The properties of an object
    are listed in enumeration order (the order [JSON.stringify] visits
    them in). *)

Inductive JsNumber :=
  | NInt (z : Z)
  | NNaN
  | NInfinity (negative : bool).

Inductive Value :=
  | VUndefined
  | VNull
  | VBool (b : bool)
  | VNum (n : JsNumber)
  | VStr (s : string)
  | VArr (ref : nat) (items : list Value)
  | VObj (ref : nat) (props : list (string * Value))
  | VError (ref : nat) (message : string)
  | VFun (ref : nat).

(** [e instanceof Error] *)
Definition instanceofError (e : Value) : bool :=
  match e with
  | VError _ _ => true
  | _ => false
  end.

(** ** Equality by value

    The source has no comparison of values; this is the specification's
    notion, needed to state what it says about cache keys. Two values
    are deep-equal when they have the same structure and the same leaves,
    whatever their addresses: arrays element by element, objects property
    by property, looked up by name (the order in which the properties
    are listed plays no part, as in [assert.deepEqual] or lodash's
    [isEqual]), numbers with [NaN] equal to itself, errors by message and
    functions by identity. *)

Definition all2 {A B : Type} (f : A -> B -> bool) : list A -> list B -> bool :=
  fix go (xs : list A) (ys : list B) : bool :=
    match xs, ys with
    | [], [] => true
    | x :: xs', y :: ys' => f x y && go xs' ys'
    | _, _ => false
    end.

Fixpoint lookupProp (k : string) (props : list (string * Value)) : option Value :=
  match props with
  | [] => None
  | p :: props' => if String.eqb (fst p) k then Some (snd p) else lookupProp k props'
  end.

Definition numberEqual (m n : JsNumber) : bool :=
  match m, n with
  | NInt a, NInt b => Z.eqb a b
  | NNaN, NNaN => true
  | NInfinity a, NInfinity b => Bool.eqb a b
  | _, _ => false
  end.

Fixpoint deepEqual (a b : Value) {struct a} : bool :=
  match a, b with
  | VUndefined, VUndefined => true
  | VNull, VNull => true
  | VBool x, VBool y => Bool.eqb x y
  | VNum m, VNum n => numberEqual m n
  | VStr s, VStr t => String.eqb s t
  | VArr _ xs, VArr _ ys => all2 deepEqual xs ys
  | VObj _ ps, VObj _ qs =>
      Nat.eqb (length ps) (length qs)
      && forallb (fun p => match lookupProp (fst p) qs with
                           | Some y => deepEqual (snd p) y
                           | None => false
                           end) ps
  | VError _ m1, VError _ m2 => String.eqb m1 m2
  | VFun r1, VFun r2 => Nat.eqb r1 r2
  | _, _ => false
  end.

(** Deep equality of two argument lists. *)
Definition deepEqualArgs (a1 a2 : list Value) : bool := all2 deepEqual a1 a2.

(** Corresponding objects of the two values list their properties in the
    same order. *)
Fixpoint sameKeyOrder (a b : Value) {struct a} : bool :=
  match a, b with
  | VArr _ xs, VArr _ ys => all2 sameKeyOrder xs ys
  | VObj _ ps, VObj _ qs =>
      all2 (fun p q => String.eqb (fst p) (fst q) && sameKeyOrder (snd p) (snd q)) ps qs
  | _, _ => true
  end.

Definition sameKeyOrderArgs (a1 a2 : list Value) : bool := all2 sameKeyOrder a1 a2.

(** No object has two properties of the same name. *)
Fixpoint wellFormed (v : Value) : bool :=
  match v with
  | VArr _ xs => forallb wellFormed xs
  | VObj _ ps =>
      bool_decide (NoDup (map fst ps)) && forallb (fun p => wellFormed (snd p)) ps
  | _ => true
  end.

(** ** JSON.stringify *)

Module JSON.

Definition dquote : Ascii.ascii := Ascii.ascii_of_nat 34.
Definition backslash : Ascii.ascii := Ascii.ascii_of_nat 92.

Definition hexDigit (n : nat) : Ascii.ascii :=
  Ascii.ascii_of_nat (if Nat.ltb n 10 then 48 + n else 87 + n).

(** One code unit of QuoteJSONString: the two-character escapes, the
    [\u00XX] form for the other control characters, the unit itself
    otherwise (strings are byte strings here; a byte above 127 is kept
    as it is). *)
Definition escapeChar (c : Ascii.ascii) : string :=
  let n := Ascii.nat_of_ascii c in
  if Nat.eqb n 8 then String backslash "b"
  else if Nat.eqb n 9 then String backslash "t"
  else if Nat.eqb n 10 then String backslash "n"
  else if Nat.eqb n 12 then String backslash "f"
  else if Nat.eqb n 13 then String backslash "r"
  else if Nat.eqb n 34 then String backslash (String dquote EmptyString)
  else if Nat.eqb n 92 then String backslash (String backslash EmptyString)
  else if Nat.ltb n 32 then
    String backslash
      ("u00" +:+ String (hexDigit (n / 16)) (String (hexDigit (n mod 16)) EmptyString))
  else String c EmptyString.

Fixpoint escape (s : string) : string :=
  match s with
  | EmptyString => EmptyString
  | String c s' => escapeChar c +:+ escape s'
  end.

Definition quote (s : string) : string :=
  String dquote (escape s +:+ String dquote EmptyString).

(** Number::toString for the numbers of the model: an integer prints in
    decimal (as JavaScript prints the integers below 10^21 in magnitude);
    [NaN] and the infinities are not finite and serialize as [null]. *)
Definition number (n : JsNumber) : string :=
  match n with
  | NInt z => pretty z
  | NNaN | NInfinity _ => "null"
  end.

(** [JSON.stringify(v)]; [None] is the result [undefined]. Inside an
    array [undefined] and functions serialize as [null], inside an
    object such properties are skipped. An [Error] has no enumerable
    own property. *)
Fixpoint stringify (v : Value) : option string :=
  match v with
  | VUndefined | VFun _ => None
  | VNull => Some "null"
  | VBool b => Some (if b then "true" else "false")
  | VNum n => Some (number n)
  | VStr s => Some (quote s)
  | VArr _ items =>
      Some ("[" +:+ String.concat ","
                      (map (fun x => default "null" (stringify x)) items) +:+ "]")
  | VObj _ props =>
      Some ("{" +:+ String.concat ","
                      (omap (fun p => (fun s => quote (fst p) +:+ ":" +:+ s)
                                        <$> stringify (snd p)) props) +:+ "}")
  | VError _ _ => Some "{}"
  end.

(** The argument list is itself an array (its own address plays no
    part in the text); [args === undefined] gives [undefined]. *)
Definition stringifyArgs (args : option (list Value)) : option string :=
  match args with
  | None => None
  | Some items => stringify (VArr 0 items)
  end.

End JSON.

(** ** Producers and the cache key *)

(** A producer is opaque: the engine sees its identity ([fn_ref], what
    React compares in dependency lists), its [name] and its source text
    ([toString()]). What a call returns or throws is an input of the
    execution (see [Completion] below). *)
Record QueryFn := {
  fn_ref : nat;
  fn_name : string;
  fn_toString : string;
}.

(** A template literal prints [undefined] as the word. *)
Definition templateString (s : option string) : string := default "undefined" s.

(** [generateCacheKey(fn, args)] *)
Definition generateCacheKey (fn : QueryFn) (args : option (list Value)) : string :=
  let fnIdentifier := if String.eqb (fn_name fn) "" then fn_toString fn else fn_name fn in
  let argsString := JSON.stringifyArgs args in
  fnIdentifier +:+ "-" +:+ templateString argsString.

(** ** The machine the hooks run on

    [cache] is the module-level [Map]; [next_ref] is the next free heap
    address, used by [new Error(...)] and by the closures a render
    creates. *)
Record World := {
  cache : gmap string Value;
  next_ref : nat;
}.

(** The hooks of the library; a publication names the hook whose
    [useState] cell it writes. *)
Inductive Hook := UseQuery | UseMutation | UseAsync | UseSuspenseQuery.

Inductive Publication :=
  | SetData (v : Value)
  | SetLoading (b : bool)
  | SetError (e : Value).

(** What an execution does that can be observed from outside, in order. *)
Inductive Event :=
  | Publish (h : Hook) (p : Publication)
  | Call (fn : QueryFn) (args : list Value)
  | OnSuccess (v : Value)
  | CacheSet (key : string) (v : Value).

(** How a piece of code ends: normally with a value, or by throwing. For
    a producer call this is what [res instanceof Promise ? await res : res]
    evaluates to, a rejection and a synchronous throw both being
    [Throw]. *)
Inductive Completion (A : Type) :=
  | Normal (a : A)
  | Throw (e : Value).
Arguments Normal {A} a.
Arguments Throw {A} e.

(** The message of the generic error the hooks construct. *)
Definition unexpectedMessage : string := "An unexpected error occured :(".

(** *** The execution monad: hook state, world and an event log

    The code of a hook runs on the state [S] of that hook (its [useState]
    cells and refs) and on the world, and logs what it does. An [async]
    function is split at its only suspension point, the producer call:
    one definition runs it up to the call, a second one ([..._resume])
    runs the rest once the producer has completed. Between the two
    anything may have happened to the hook state and to the world (a
    cleanup, other executions, an invalidation), so the second part takes
    the state and the world it finds. *)

Record Result (S A : Type) := mkResult {
  completion : Completion A;
  hook : S;
  world : World;
  trace : list Event;
}.
Arguments mkResult {S A} completion hook world trace.
Arguments completion {S A} r.
Arguments hook {S A} r.
Arguments world {S A} r.
Arguments trace {S A} r.

Definition Exec (S A : Type) : Type := S -> World -> Result S A.

Section Exec.
Context {S : Type}.

Definition ret {A} (a : A) : Exec S A :=
  fun st w => mkResult (Normal a) st w [].

Definition throw {A} (e : Value) : Exec S A :=
  fun st w => mkResult (Throw e) st w [].

(** A step that throws ends the sequence; the log accumulates. *)
Definition bind {A B} (m : Exec S A) (k : A -> Exec S B) : Exec S B :=
  fun st w =>
    let '(mkResult c st1 w1 t1) := m st w in
    match c with
    | Normal a =>
        let '(mkResult c2 st2 w2 t2) := k a st1 w1 in
        mkResult c2 st2 w2 (t1 ++ t2)
    | Throw e => mkResult (Throw e) st1 w1 t1
    end.

Definition emit (ev : Event) : Exec S unit :=
  fun st w => mkResult (Normal tt) st w [ev].

Definition getHook : Exec S S :=
  fun st w => mkResult (Normal st) st w [].

Definition modifyHook (f : S -> S) : Exec S unit :=
  fun st w => mkResult (Normal tt) (f st) w [].

Definition getWorld : Exec S World :=
  fun st w => mkResult (Normal w) st w [].

Definition putWorld (w' : World) : Exec S unit :=
  fun st w => mkResult (Normal tt) st w' [].

(** The value an awaited producer call completes with. *)
Definition settle {A} (c : Completion A) : Exec S A :=
  fun st w => mkResult c st w [].

(** [try { body } catch (e) { handler e } finally { finalizer }]: the
    handler runs when the body throws, the finalizer in every case; the
    statement completes as the body (or the handler) did, unless the
    finalizer itself throws. *)
Definition tryCatchFinally {A} (body : Exec S A) (handler : Value -> Exec S A)
    (finalizer : Exec S unit) : Exec S A :=
  fun st w =>
    let '(mkResult c1 st1 w1 t1) :=
      let '(mkResult c0 st0 w0 t0) := body st w in
      match c0 with
      | Normal a => mkResult (Normal a) st0 w0 t0
      | Throw e =>
          let '(mkResult c' st' w' t') := handler e st0 w0 in
          mkResult c' st' w' (t0 ++ t')
      end in
    let '(mkResult c2 st2 w2 t2) := finalizer st1 w1 in
    mkResult (match c2 with Normal _ => c1 | Throw e => Throw e end) st2 w2 (t1 ++ t2).

Definition when (b : bool) (m : Exec S unit) : Exec S unit :=
  if b then m else ret tt.

(** *** The cache and the heap *)

(** [cache.has(key)] *)
Definition cache_has (key : string) : Exec S bool :=
  bind getWorld (fun w => ret (bool_decide (is_Some (cache w !! key)))).

(** [cache.get(key)]: [undefined] for a key that is not there. *)
Definition cache_get (key : string) : Exec S Value :=
  bind getWorld (fun w => ret (default VUndefined (cache w !! key))).

(** [cache.set(key, v)] *)
Definition cache_set (key : string) (v : Value) : Exec S unit :=
  bind getWorld (fun w =>
  bind (putWorld {| cache := <[key := v]> (cache w); next_ref := next_ref w |}) (fun _ =>
  emit (CacheSet key v))).

(** [new Error(message)] *)
Definition newError (message : string) : Exec S Value :=
  bind getWorld (fun w =>
  bind (putWorld {| cache := cache w; next_ref := Datatypes.S (next_ref w) |}) (fun _ =>
  ret (VError (next_ref w) message))).

(** [e instanceof Error ? e : new Error(...)] with the generic message. *)
Definition normalizeError (e : Value) : Exec S Value :=
  if instanceofError e then ret e else newError unexpectedMessage.

(** [fn(...args)]: the call is logged; what it completes with is
    supplied when the execution resumes. *)
Definition call (fn : QueryFn) (args : list Value) : Exec S unit :=
  emit (Call fn args).

End Exec.

Declare Scope exec_scope.
Delimit Scope exec_scope with exec.
Notation "x <- m ;; k" := (bind m (fun x => k))
  (at level 100, m at level 99, k at level 200, right associativity) : exec_scope.
Notation "m ;; k" := (bind m (fun _ => k))
  (at level 100, k at level 200, right associativity) : exec_scope.
#[local] Open Scope exec_scope.

(** ** useQuery *)

Module Query.

Record QueryOptions := {
  fn : QueryFn;
  callerArgs : option (list Value);
  useCache : option bool;
  customQueryKey : option string;
}.

(** The three [useState] cells and the [isMounted] ref. *)
Record State := {
  data : Value;
  loading : bool;
  error : Value;
  isMounted : bool;
}.

Definition initial : State :=
  {| data := VUndefined; loading := false; error := VUndefined; isMounted := true |}.

(** The setters of the [useState] cells: the call is logged with its
    argument and the cell takes the argument. (That is what React does
    with every argument but a function, which it calls as an updater
    with the previous state, storing what it returns; the statements
    that read a [data] cell after [setData(v)] are about a [v] that is
    not a function, see [isFunction].) *)
Definition setData (v : Value) : Exec State unit :=
  modifyHook (fun st => {| data := v; loading := loading st; error := error st;
                           isMounted := isMounted st |}) ;;
  emit (Publish UseQuery (SetData v)).

Definition setLoading (b : bool) : Exec State unit :=
  modifyHook (fun st => {| data := data st; loading := b; error := error st;
                           isMounted := isMounted st |}) ;;
  emit (Publish UseQuery (SetLoading b)).

Definition setError (e : Value) : Exec State unit :=
  modifyHook (fun st => {| data := data st; loading := loading st; error := e;
                           isMounted := isMounted st |}) ;;
  emit (Publish UseQuery (SetError e)).

Definition setMounted (b : bool) : Exec State unit :=
  modifyHook (fun st => {| data := data st; loading := loading st; error := error st;
                           isMounted := b |}).

(** [useCache: useCacheOption = true] *)
Definition useCacheOption (o : QueryOptions) : bool := default true (useCache o).

(** [callerArgs ?? []] *)
Definition currentCallerArgs (o : QueryOptions) : list Value := default [] (callerArgs o).

(** [customQueryKey ?? generateCacheKey(fn, currentCallerArgs)] *)
Definition cacheKey (o : QueryOptions) : string :=
  default (generateCacheKey (fn o) (Some (currentCallerArgs o))) (customQueryKey o).

(** Where [runQuery] stands when control returns to the caller: done
    (the cache answered), or waiting for the producer. *)
Inductive Phase := Settled | Pending.

(** [runQuery], from its first line to the call [fn(...currentCallerArgs)]. *)
Definition runQuery (o : QueryOptions) : Exec State Phase :=
  hit <- cache_has (cacheKey o) ;;
  if useCacheOption o && hit then
    v <- cache_get (cacheKey o) ;;
    setData v ;;
    setLoading false ;;
    ret Settled
  else
    setLoading true ;;
    call (fn o) (currentCallerArgs o) ;;
    ret Pending.

(** The rest of [runQuery], once the producer has completed with [res]:
    the remainder of the [try] block, the [catch] and the [finally]. *)
Definition runQuery_resume (o : QueryOptions) (res : Completion Value) : Exec State unit :=
  tryCatchFinally
    (returnData <- settle res ;;
     st <- getHook ;;
     when (isMounted st)
       (setData returnData ;;
        when (useCacheOption o) (cache_set (cacheKey o) returnData)))
    (fun e =>
       st <- getHook ;;
       when (isMounted st) (err <- normalizeError e ;; setError err))
    (st <- getHook ;;
     when (isMounted st) (setLoading false)).

(** [refetch] *)
Definition refetch (o : QueryOptions) : Exec State Phase := runQuery o.

(** The effect body and its cleanup. *)
Definition effect (o : QueryOptions) : Exec State Phase :=
  setMounted true ;; runQuery o.

Definition cleanup : Exec State unit := setMounted false.

(** What happens to one [useQuery] instance over time; [Resume o res]:
    the producer call of a pending execution started with the options
    [o] completes with [res]. *)
Inductive Action :=
  | Effect (o : QueryOptions)
  | Cleanup
  | Refetch (o : QueryOptions)
  | Resume (o : QueryOptions) (res : Completion Value).

Definition step (a : Action) : Exec State unit :=
  match a with
  | Effect o => effect o ;; ret tt
  | Cleanup => cleanup
  | Refetch o => refetch o ;; ret tt
  | Resume o res => runQuery_resume o res
  end.

Fixpoint run (acts : list Action) : Exec State unit :=
  match acts with
  | [] => ret tt
  | a :: acts' => step a ;; run acts'
  end.

End Query.

(** ** useAsync *)

Module Async.

(** [AsyncFnState]: the record attached to the returned function. *)
Record AsyncFnState := {
  state_error : Value;
  state_loading : bool;
}.

(** The function [newFn] as a render creates it: a closure over the
    [data] of that render and over the wrapped function, whose identity
    [wraps] is the dependency list [[fn]] it was memoized under. *)
Record SyncFn := {
  captured_data : Value;
  wraps : nat;
  state : AsyncFnState;
}.

(** The three [useState] cells and the [useCallback] cell. *)
Record State := {
  data : Value;
  loading : bool;
  error : Value;
  memo : option SyncFn;
}.

Definition initial : State :=
  {| data := VUndefined; loading := false; error := VUndefined; memo := None |}.

Section Hook.
(** The hook runs inside a component with state [S]; [view] and
    [update] reach the cells of this [useAsync] call. *)
Context {S : Type}.
Variable view : S -> State.
Variable update : State -> S -> S.

(** The wrapped function [fn]: its identity, what calling it does
    before it first suspends, and the rest of it once the producer it
    waits for has completed, ending in the completion that
    [await fn(...args)] observes. *)
Variable fn_id : nat.
Variable fn_call : list Value -> Exec S unit.
Variable fn_resume : Completion Value -> Exec S Value.

(** The setters, as in [useQuery]: the cell takes the argument. *)
Definition setData (v : Value) : Exec S unit :=
  modifyHook (fun s => let st := view s in
    update {| data := v; loading := loading st; error := error st;
              memo := memo st |} s) ;;
  emit (Publish UseAsync (SetData v)).

Definition setLoading (b : bool) : Exec S unit :=
  modifyHook (fun s => let st := view s in
    update {| data := data st; loading := b; error := error st;
              memo := memo st |} s) ;;
  emit (Publish UseAsync (SetLoading b)).

Definition setError (e : Value) : Exec S unit :=
  modifyHook (fun s => let st := view s in
    update {| data := data st; loading := loading st; error := e;
              memo := memo st |} s) ;;
  emit (Publish UseAsync (SetError e)).

Definition setMemo (cb : SyncFn) : Exec S unit :=
  modifyHook (fun s => let st := view s in
    update {| data := data st; loading := loading st; error := error st;
              memo := Some cb |} s).

(** [useCallback(f, [fn])]: the callback of an earlier render is kept
    as long as [fn] is the same function (React compares the
    dependencies with [Object.is]); otherwise the closure [fresh] of
    this render replaces it. *)
Definition useCallback (fresh : SyncFn) : Exec S SyncFn :=
  s <- getHook ;;
  match memo (view s) with
  | Some cb => if Nat.eqb (wraps cb) fn_id then ret cb else ret fresh
  | None => ret fresh
  end.

(** One render of [useAsync(fn)]: the value the hook returns. *)
Definition useAsync : Exec S SyncFn :=
  s <- getHook ;;
  let st := view s in
  newFn <- useCallback {| captured_data := data st; wraps := fn_id;
                          state := {| state_error := VUndefined;
                                      state_loading := false |} |} ;;
  (* Object.assign(newFn, { state: { error, loading } }) *)
  let assigned := {| captured_data := captured_data newFn; wraps := wraps newFn;
                     state := {| state_error := error st;
                                 state_loading := loading st |} |} in
  setMemo assigned ;;
  ret assigned.

(** Calling the returned function, up to the point where the wrapped
    function is waiting; the result is what the call returns. (The
    closure calls the [fn] it was created with, which is the [fn] of the
    current render whenever the closure is the memoized one.) *)
Definition newFn (cb : SyncFn) (args : list Value) : Exec S Value :=
  setError VUndefined ;;
  setLoading true ;;
  fn_call args ;;
  ret (captured_data cb).

(** The rest of the [async] block inside [newFn]. *)
Definition newFn_resume (res : Completion Value) : Exec S unit :=
  tryCatchFinally
    (returnData <- fn_resume res ;; setData returnData)
    (fun e => err <- normalizeError e ;; setError err)
    (setLoading false).

End Hook.

(** [useAsync] called directly by a component, on an opaque [fn]. *)
Definition render (fn : QueryFn) : Exec State SyncFn :=
  useAsync id (fun st _ => st) (fn_ref fn).

Definition invoke (fn : QueryFn) (cb : SyncFn) (args : list Value) : Exec State Value :=
  newFn id (fun st _ => st) (call fn) cb args.

Definition resume (res : Completion Value) : Exec State unit :=
  newFn_resume id (fun st _ => st) settle res.

End Async.

(** ** useMutation *)

(** The [onSuccess] callback is the caller's code: it may change the
    world (invalidate cache entries, say) and it may throw. *)
Record Callback := {
  cb_ref : nat;
  cb_run : Value -> World -> Completion unit * World;
}.

Module Mutation.

Record MutationOptions := {
  fn : QueryFn;
  useCache : option bool;
  customQueryKey : option string;
  onSuccess : option Callback;
}.

(** The function [mutate] as a render creates it: a closure over the
    options of that render, allocated at [mutate_ref]. *)
Record MutateFn := {
  mutate_ref : nat;
  opts : MutationOptions;
}.

(** The cells of [useMutation] itself, its [isMounted] ref, its
    [useCallback] cell, and the cells of the [useAsync] call inside. *)
Record State := {
  data : Value;
  loading : bool;
  error : Value;
  isMounted : bool;
  mutate_memo : option MutateFn;
  wrapper : Async.State;
}.

Definition initial : State :=
  {| data := VUndefined; loading := false; error := VUndefined; isMounted := true;
     mutate_memo := None; wrapper := Async.initial |}.

(** The setters, as in [useQuery]: the cell takes the argument. *)
Definition setData (v : Value) : Exec State unit :=
  modifyHook (fun st => {| data := v; loading := loading st; error := error st;
                           isMounted := isMounted st; mutate_memo := mutate_memo st;
                           wrapper := wrapper st |}) ;;
  emit (Publish UseMutation (SetData v)).

Definition setLoading (b : bool) : Exec State unit :=
  modifyHook (fun st => {| data := data st; loading := b; error := error st;
                           isMounted := isMounted st; mutate_memo := mutate_memo st;
                           wrapper := wrapper st |}) ;;
  emit (Publish UseMutation (SetLoading b)).

Definition setError (e : Value) : Exec State unit :=
  modifyHook (fun st => {| data := data st; loading := loading st; error := e;
                           isMounted := isMounted st; mutate_memo := mutate_memo st;
                           wrapper := wrapper st |}) ;;
  emit (Publish UseMutation (SetError e)).

Definition setMemo (m : MutateFn) : Exec State unit :=
  modifyHook (fun st => {| data := data st; loading := loading st; error := error st;
                           isMounted := isMounted st; mutate_memo := Some m;
                           wrapper := wrapper st |}).

Definition setWrapper (a : Async.State) (st : State) : State :=
  {| data := data st; loading := loading st; error := error st;
     isMounted := isMounted st; mutate_memo := mutate_memo st; wrapper := a |}.

(** The cleanup of the effect with the empty dependency list. *)
Definition cleanup : Exec State unit :=
  modifyHook (fun st => {| data := data st; loading := loading st; error := error st;
                           isMounted := false; mutate_memo := mutate_memo st;
                           wrapper := wrapper st |}).

Definition useCacheOption (o : MutationOptions) : bool := default true (useCache o).

(** [customQueryKey ?? generateCacheKey(opts.fn, currentCallerArgs)],
    where [currentCallerArgs] is the rest parameter [args]. *)
Definition cacheKey (o : MutationOptions) (args : list Value) : string :=
  default (generateCacheKey (fn o) (Some args)) (customQueryKey o).

(** [onSuccess(returnData)] *)
Definition invokeCallback (cb : Callback) (v : Value) : Exec State unit :=
  emit (OnSuccess v) ;;
  w <- getWorld ;;
  let '(c, w') := cb_run cb v w in
  putWorld w' ;;
  settle c.

(** [mutate(...args)], up to the call [opts.fn(...currentCallerArgs)]. *)
Definition mutate (o : MutationOptions) (args : list Value) : Exec State unit :=
  st <- getHook ;;
  when (isMounted st) (setLoading true) ;;
  call (fn o) args.

(** The rest of [mutate], once the producer has completed with [res]. *)
Definition mutate_resume (o : MutationOptions) (args : list Value)
    (res : Completion Value) : Exec State unit :=
  tryCatchFinally
    (returnData <- settle res ;;
     st <- getHook ;;
     when (isMounted st)
       (setData returnData ;;
        match onSuccess o with
        | Some cb => invokeCallback cb returnData
        | None => ret tt
        end ;;
        when (useCacheOption o) (cache_set (cacheKey o args) returnData)))
    (fun e =>
       st <- getHook ;;
       when (isMounted st) (err <- normalizeError e ;; setError err))
    (st <- getHook ;;
     when (isMounted st) (setLoading false)).

(** The dependency list [[fn, useCacheOption, onSuccess, customQueryKey]]
    of two renders holds the same values. *)
Definition sameDeps (o1 o2 : MutationOptions) : bool :=
  Nat.eqb (fn_ref (fn o1)) (fn_ref (fn o2))
  && Bool.eqb (useCacheOption o1) (useCacheOption o2)
  && bool_decide (cb_ref <$> onSuccess o1 = cb_ref <$> onSuccess o2)
  && bool_decide (customQueryKey o1 = customQueryKey o2).

(** One render of [useMutation(opts)]: the [mutate] field of the
    result, that is [useAsync(mutate)]. *)
Definition useMutation (o : MutationOptions) : Exec State Async.SyncFn :=
  st <- getHook ;;
  w <- getWorld ;;
  putWorld {| cache := cache w; next_ref := S (next_ref w) |} ;;
  let fresh := {| mutate_ref := next_ref w; opts := o |} in
  let mutate :=
    match mutate_memo st with
    | Some m => if sameDeps (opts m) o then m else fresh
    | None => fresh
    end in
  setMemo mutate ;;
  Async.useAsync wrapper setWrapper (mutate_ref mutate).

(** Calling the returned [mutate] function: [newFn] of the wrapper
    around [mutate]. *)
Definition mutateFn (o : MutationOptions) (cb : Async.SyncFn) (args : list Value)
    : Exec State Value :=
  Async.newFn wrapper setWrapper (mutate o) cb args.

(** What happens once the producer has completed: [mutate] runs to its
    end and resolves to [undefined], then the wrapper's block resumes. *)
Definition mutateFn_resume (o : MutationOptions) (args : list Value)
    (res : Completion Value) : Exec State unit :=
  Async.newFn_resume wrapper setWrapper
    (fun r => mutate_resume o args r ;; ret VUndefined) res.

End Mutation.

(** ** useSuspenseQuery *)

Module Suspense.

Record State := {
  data : Value;
  error : Value;
  isMounted : bool;
}.

Definition initial : State :=
  {| data := VUndefined; error := VUndefined; isMounted := true |}.

(** The setters, as in [useQuery]: the cell takes the argument. *)
Definition setData (v : Value) : Exec State unit :=
  modifyHook (fun st => {| data := v; error := error st; isMounted := isMounted st |}) ;;
  emit (Publish UseSuspenseQuery (SetData v)).

Definition setError (e : Value) : Exec State unit :=
  modifyHook (fun st => {| data := data st; error := e; isMounted := isMounted st |}) ;;
  emit (Publish UseSuspenseQuery (SetError e)).

Definition setMounted (b : bool) : Exec State unit :=
  modifyHook (fun st => {| data := data st; error := error st; isMounted := b |}).

(** The [async] block of the effect and of [refetch] (the same text),
    up to the call [fn(...currentCallerArgs)]. *)
Definition fetch (o : Query.QueryOptions) : Exec State unit :=
  call (Query.fn o) (Query.currentCallerArgs o).

(** The rest of that block, once the producer has completed. *)
Definition fetch_resume (o : Query.QueryOptions) (res : Completion Value)
    : Exec State unit :=
  tryCatchFinally
    (returnData <- settle res ;;
     st <- getHook ;;
     when (isMounted st)
       (setData returnData ;;
        when (Query.useCacheOption o) (cache_set (Query.cacheKey o) returnData)))
    (fun e =>
       st <- getHook ;;
       when (isMounted st) (err <- normalizeError e ;; setError err))
    (ret tt).

Definition effect (o : Query.QueryOptions) : Exec State unit :=
  setMounted true ;; fetch o.

Definition cleanup : Exec State unit := setMounted false.

Definition refetch (o : Query.QueryOptions) : Exec State unit := fetch o.

End Suspense.

(** ** QueryClient *)

Module QueryClient.

Section Methods.
Context {S : Type}.

(** [cache.delete(key)] *)
Definition cache_delete (key : string) : Exec S unit :=
  w <- getWorld ;;
  putWorld {| cache := delete key (cache w); next_ref := next_ref w |}.

(** [clearCache()], that is [cache.clear()] *)
Definition clearCache : Exec S unit :=
  w <- getWorld ;;
  putWorld {| cache := ∅; next_ref := next_ref w |}.

(** [getCache()]: the map itself, not a copy. *)
Definition getCache : Exec S (gmap string Value) :=
  w <- getWorld ;; ret (cache w).

(** [invalidateKey(key)] *)
Definition invalidateKey (key : string) : Exec S unit :=
  hit <- cache_has key ;;
  when hit (cache_delete key).

(** [invalidateKeys(keys)]: [keys.forEach((key) => this.invalidateKey(key))] *)
Fixpoint invalidateKeys (keys : list string) : Exec S unit :=
  match keys with
  | [] => ret tt
  | key :: keys' => invalidateKey key ;; invalidateKeys keys'
  end.

(** [invalidateAll()] *)
Definition invalidateAll : Exec S unit := clearCache.

End Methods.

End QueryClient.

(** ** useAsyncComponent *)

Module AsyncComponent.

(** What [if (x)] makes of a value. *)
Definition truthy (v : Value) : bool :=
  match v with
  | VUndefined | VNull => false
  | VBool b => b
  | VNum (NInt z) => negb (Z.eqb z 0)
  | VNum NNaN => false
  | VNum (NInfinity _) => true
  | VStr s => negb (String.eqb s "")
  | VArr _ _ | VObj _ _ | VError _ _ | VFun _ => true
  end.

(** [x ?? y] takes [y] for these. *)
Definition nullish (v : Value) : bool :=
  match v with
  | VUndefined | VNull => true
  | _ => false
  end.

(** [fallback] is a node or [undefined]; [errorBoundary] is a component,
    known by its identity, or absent. *)
Record AsyncComponentOptions := {
  fallback : Value;
  errorBoundary : option nat;
}.

(** What the component returns. *)
Inductive Renderable :=
  | Node (v : Value)
  | EmptyFragment
  | Fragment (child : Renderable)
  | ErrorBoundary (component : nat) (error : Value).

(** The options of the [useQuery] call inside [Comp]. *)
Definition queryOptions (fn : QueryFn) (props : Value) : Query.QueryOptions :=
  {| Query.fn := fn; Query.callerArgs := Some [props];
     Query.useCache := None; Query.customQueryKey := None |}.

(** The body of [Comp] after the [useQuery] call, on the cells that call
    returned; [options] itself may be absent. *)
Definition Comp (options : option AsyncComponentOptions) (q : Query.State) : Renderable :=
  if Query.loading q then
    let fb := match options with
              | Some o => fallback o
              | None => VUndefined
              end in
    Fragment (if nullish fb then EmptyFragment else Node fb)
  else if truthy (Query.error q) then
    match options with
    | Some {| errorBoundary := Some boundary |} => ErrorBoundary boundary (Query.error q)
    | _ => Fragment (Node VNull)
    end
  else if truthy (Query.data q) then Node (Query.data q)
  else Fragment (Node VNull).

End AsyncComponent.

(** ** A component over time *)

(** What happens to one [useMutation] instance over time. *)
Module MutationMachine.

Inductive Action :=
  | Render (o : Mutation.MutationOptions)
  | Mutate (o : Mutation.MutationOptions) (args : list Value)
  | Resume (o : Mutation.MutationOptions) (args : list Value) (res : Completion Value)
  | Cleanup.

(** [Mutate o args]: the component renders with the options [o] and the
    [mutate] it gets from that render is called; the step gives what the
    call returns. [Resume o args res]: the producer called by a pending
    [mutate(...args)] completes with [res]. *)
Definition step (a : Action) : Exec Mutation.State Value :=
  match a with
  | Render o => Mutation.useMutation o ;; ret VUndefined
  | Mutate o args => cb <- Mutation.useMutation o ;; Mutation.mutateFn o cb args
  | Resume o args res => Mutation.mutateFn_resume o args res ;; ret VUndefined
  | Cleanup => Mutation.cleanup ;; ret VUndefined
  end.

Fixpoint run (acts : list Action) : Exec Mutation.State unit :=
  match acts with
  | [] => ret tt
  | a :: acts' => step a ;; run acts'
  end.

End MutationMachine.

(** What happens to one [useAsync] instance over time. *)
Module AsyncMachine.

Inductive Action :=
  | Render (fn : QueryFn)
  | Invoke (fn : QueryFn) (args : list Value)
  | Resume (res : Completion Value).

(** The function the component passes to [useAsync] in this step, if any. *)
Definition wrapped (a : Action) : option QueryFn :=
  match a with
  | Render fn | Invoke fn _ => Some fn
  | Resume _ => None
  end.

(** [Invoke fn args]: the component renders with [fn] and the function
    it gets from that render is called; the step gives what the call
    returns. *)
Definition step (a : Action) : Exec Async.State Value :=
  match a with
  | Render fn => Async.render fn ;; ret VUndefined
  | Invoke fn args => cb <- Async.render fn ;; Async.invoke fn cb args
  | Resume res => Async.resume res ;; ret VUndefined
  end.

Fixpoint run (acts : list Action) : Exec Async.State unit :=
  match acts with
  | [] => ret tt
  | a :: acts' => step a ;; run acts'
  end.

End AsyncMachine.

(** The wrapper's [data] cell and the closure in its memo cell hold
    nothing but [undefined]. *)
Definition wrapperHoldsNothing (st : Mutation.State) : Prop :=
  Async.data (Mutation.wrapper st) = VUndefined
  /\ forall cb, Async.memo (Mutation.wrapper st) = Some cb ->
                Async.captured_data cb = VUndefined.

(** Success callbacks for the examples: one that removes the entries
    under [k1] and [users] from the cache, one that throws a string. *)
Definition invalidatingCallback : Callback :=
  {| cb_ref := 50;
     cb_run := fun _ w =>
       (Normal tt, {| cache := delete "k1" (delete "users" (cache w));
                      next_ref := next_ref w |}) |}.

Definition throwingCallback : Callback :=
  {| cb_ref := 51; cb_run := fun _ w => (Throw (VStr "callback failed"), w) |}.

(** The values [JSON.stringify] prints as [null] inside an array. *)
Definition serializesAsNull (v : Value) : bool :=
  match v with
  | VUndefined | VNull | VFun _ | VNum NNaN | VNum (NInfinity _) => true
  | _ => false
  end.

(** The integers a JavaScript number holds exactly. *)
Definition safeInteger (z : Z) : Prop := (- (2 ^ 53 - 1) <= z <= 2 ^ 53 - 1)%Z.

(** An argument list of integers. *)
Definition integerArgs (zs : list Z) : list Value := map (fun z => VNum (NInt z)) zs.

(** The string holds no comma. *)
Fixpoint commaFree (s : string) : bool :=
  match s with
  | EmptyString => true
  | String c s' => negb (Ascii.eqb c (Ascii.ascii_of_nat 44)) && commaFree s'
  end.

(** How many producer calls a log holds, and how many steps of a run
    start an execution. *)
Fixpoint producerCalls (t : list Event) : nat :=
  match t with
  | [] => 0
  | Call _ _ :: t' => S (producerCalls t')
  | _ :: t' => producerCalls t'
  end.

Fixpoint executionsStarted (acts : list Query.Action) : nat :=
  match acts with
  | [] => 0
  | (Query.Effect _ | Query.Refetch _) :: acts' => S (executionsStarted acts')
  | _ :: acts' => executionsStarted acts'
  end.

(** The step starts an execution whose key has no entry in the cache
    [c], or is a cleanup; no producer completes in it. *)
Definition startsUncached (c : gmap string Value) (a : Query.Action) : Prop :=
  match a with
  | Query.Effect o | Query.Refetch o => c !! Query.cacheKey o = None
  | Query.Cleanup => True
  | Query.Resume _ _ => False
  end.

(** ** Vocabulary of the statements *)

(** The error a failed execution publishes for the thrown value [e] when
    the heap stands at [w]: [e] itself when it is an [Error], a newly
    allocated generic error otherwise. *)
Definition normalized (e : Value) (w : World) : Value :=
  if instanceofError e then e else VError (next_ref w) unexpectedMessage.

(** [a] occurs in the log [t] strictly before [b]. *)
Definition before (a b : Event) (t : list Event) : Prop :=
  exists l1 l2 l3 : list Event, t = (l1 ++ a :: l2 ++ b :: l3)%list.

(** [a] is the last entry of the log [t] and occurs nowhere else in it. *)
Definition onlyLast (a : Event) (t : list Event) : Prop :=
  exists init : list Event, t = (init ++ [a])%list /\ a ∉ init.

(** [typeof v] is [function]. A state setter of React stores the value
    it is given unless that value is a function, which React calls as an
    updater with the previous state; what a [data] cell holds after
    [setData(v)] is therefore stated for the values that are not
    functions. The publication itself, [setData(v)] in the log, and the
    cache entry are [v] whatever [v] is. *)
Definition isFunction (v : Value) : bool :=
  match v with
  | VFun _ => true
  | _ => false
  end.

(** What calling the optional [onSuccess] callback does. *)
Definition callbackOutcome (cb : option Callback) (v : Value) (w : World)
    : Completion unit * World :=
  match cb with
  | Some c => cb_run c v w
  | None => (Normal tt, w)
  end.

(** The log holds no producer call. *)
Definition noCall (t : list Event) : Prop := forall f a, Call f a ∉ t.

(** ** Sample producers and options used by the examples below *)

Module Sample.

Definition getUser : QueryFn :=
  {| fn_ref := 1; fn_name := "getUser"; fn_toString := "function getUser(q) { }" |}.

Definition saveUser : QueryFn :=
  {| fn_ref := 2; fn_name := "saveUser"; fn_toString := "function saveUser(u) { }" |}.

Definition emptyWorld : World := {| cache := ∅; next_ref := 100 |}.

Definition query : Query.QueryOptions :=
  {| Query.fn := getUser; Query.callerArgs := Some [VNum (NInt 7)];
     Query.useCache := None; Query.customQueryKey := None |}.

Definition uncachedQuery : Query.QueryOptions :=
  {| Query.fn := getUser; Query.callerArgs := Some [VNum (NInt 7)];
     Query.useCache := Some false; Query.customQueryKey := None |}.

Definition mutation : Mutation.MutationOptions :=
  {| Mutation.fn := saveUser; Mutation.useCache := None;
     Mutation.customQueryKey := Some "k1"; Mutation.onSuccess := None |}.

(** The value a render returned, or a callback that can be told apart
    when the render threw (it never does). *)
Definition returned {S : Type} (r : Result S Async.SyncFn) : Async.SyncFn :=
  match completion r with
  | Normal cb => cb
  | Throw _ => {| Async.captured_data := VNull; Async.wraps := 0;
                  Async.state := {| Async.state_error := VNull;
                                    Async.state_loading := false |} |}
  end.

End Sample.

(** * Properties *)

(** ** Cache keys *)

(** Induction on a value whose arrays and objects give the induction
    hypothesis for every element and every property value. *)
Lemma Value_nested_ind (P : Value -> Prop) :
  P VUndefined -> P VNull -> (forall b, P (VBool b)) -> (forall n, P (VNum n)) ->
  (forall s, P (VStr s)) ->
  (forall r xs, Forall P xs -> P (VArr r xs)) ->
  (forall r ps, Forall (fun p => P (snd p)) ps -> P (VObj r ps)) ->
  (forall r m, P (VError r m)) -> (forall r, P (VFun r)) ->
  forall v, P v.
Proof.
  intros Hu Hn Hb Hnum Hs Ha Ho He Hf.
  fix IH 1. intros [ | | b | n | s | r xs | r ps | r m | r ].
  - exact Hu.
  - exact Hn.
  - apply Hb.
  - apply Hnum.
  - apply Hs.
  - apply Ha. induction xs as [|x xs IHxs]; constructor; [apply IH | exact IHxs].
  - apply Ho. induction ps as [|p ps IHps]; constructor; [apply IH | exact IHps].
  - apply He.
  - apply Hf.
Qed.

Lemma numberEqual_eq m n : numberEqual m n = true -> m = n.
Proof.
  destruct m as [a| |a], n as [b| |b]; simpl; try discriminate; try reflexivity.
  - intros H. apply Z.eqb_eq in H. by subst.
  - intros H. apply Bool.eqb_prop in H. by subst.
Qed.

(** In an object without duplicate names, looking a property up by name
    finds the property listed under that name. *)
Lemma lookupProp_middle (pre : list (string * Value)) q post :
  NoDup (map fst (pre ++ q :: post)%list) ->
  lookupProp (fst q) (pre ++ q :: post)%list = Some (snd q).
Proof.
  induction pre as [|p pre IH]; simpl; intros Hnd.
  - by rewrite String.eqb_refl.
  - apply NoDup_cons in Hnd as [Hnotin Hnd].
    destruct (String.eqb (fst p) (fst q)) eqn:E.
    + apply String.eqb_eq in E. exfalso. apply Hnotin.
      rewrite E, map_app. simpl. apply elem_of_app. right. apply elem_of_cons. by left.
    + by apply IH.
Qed.

Lemma all2_items_stringify xs : forall ys,
  Forall (fun a => forall b, wellFormed b = true -> deepEqual a b = true ->
                             sameKeyOrder a b = true ->
                             JSON.stringify a = JSON.stringify b) xs ->
  forallb wellFormed ys = true ->
  all2 deepEqual xs ys = true ->
  all2 sameKeyOrder xs ys = true ->
  map (fun x => default "null" (JSON.stringify x)) xs
  = map (fun x => default "null" (JSON.stringify x)) ys.
Proof.
  induction xs as [|x xs IH]; intros [|y ys] HP Hwf Hde Hso; simpl in *;
    try discriminate; try reflexivity.
  apply Forall_cons in HP as [Hx HP].
  apply andb_prop in Hwf as [Hwy Hwf].
  apply andb_prop in Hde as [Hdy Hde].
  apply andb_prop in Hso as [Hsy Hso].
  f_equal; [by rewrite (Hx y) | by apply IH].
Qed.

Lemma all2_props_stringify (qs0 ps : list (string * Value)) : forall pre qs,
  qs0 = (pre ++ qs)%list ->
  NoDup (map fst qs0) ->
  Forall (fun p => forall b, wellFormed b = true -> deepEqual (snd p) b = true ->
                             sameKeyOrder (snd p) b = true ->
                             JSON.stringify (snd p) = JSON.stringify b) ps ->
  forallb (fun q => wellFormed (snd q)) qs = true ->
  forallb (fun p => match lookupProp (fst p) qs0 with
                    | Some y => deepEqual (snd p) y
                    | None => false
                    end) ps = true ->
  all2 (fun p q => String.eqb (fst p) (fst q) && sameKeyOrder (snd p) (snd q)) ps qs = true ->
  omap (fun p => (fun s => JSON.quote (fst p) +:+ ":" +:+ s) <$> JSON.stringify (snd p)) ps
  = omap (fun p => (fun s => JSON.quote (fst p) +:+ ":" +:+ s) <$> JSON.stringify (snd p)) qs.
Proof.
  induction ps as [|p ps IH]; intros pre [|q qs] Hqs0 Hnd HP Hwf Hde Hso; simpl in *;
    try discriminate; try reflexivity.
  apply Forall_cons in HP as [Hp HP].
  apply andb_prop in Hwf as [Hwq Hwf].
  apply andb_prop in Hde as [Hdq Hde].
  apply andb_prop in Hso as [Hsq Hso].
  apply andb_prop in Hsq as [Hk Hsq].
  apply String.eqb_eq in Hk.
  assert (Hlk : lookupProp (fst p) qs0 = Some (snd q)).
  { rewrite Hk, Hqs0. apply lookupProp_middle. by rewrite <- Hqs0. }
  rewrite Hlk in Hdq.
  rewrite (Hp (snd q) Hwq Hdq Hsq), Hk.
  assert (Hrest := IH (pre ++ [q])%list qs).
  rewrite <- app_assoc in Hrest. specialize (Hrest Hqs0 Hnd HP Hwf Hde Hso).
  destruct ((fun s => JSON.quote (fst q) +:+ ":" +:+ s) <$> JSON.stringify (snd q));
    [f_equal |]; exact Hrest.
Qed.

(** [JSON.stringify] does not tell apart two deep-equal values whose
    objects list their properties in the same order. *)
Lemma stringify_deepEqual_sameKeyOrder a : forall b,
  wellFormed b = true -> deepEqual a b = true -> sameKeyOrder a b = true ->
  JSON.stringify a = JSON.stringify b.
Proof.
  induction a as [ | | x | m | s | r xs IH | r ps IH | r m | r ] using Value_nested_ind;
    intros [ | | y | n | t | r' ys | r' qs | r' m' | r' ] Hwf Hde Hso;
    simpl in Hde; try discriminate; try reflexivity.
  - apply Bool.eqb_prop in Hde. by subst.
  - apply numberEqual_eq in Hde. by subst.
  - apply String.eqb_eq in Hde. by subst.
  - simpl in *. by rewrite (all2_items_stringify xs ys).
  - simpl in *.
    apply andb_prop in Hwf as [Hnd Hwf]. apply bool_decide_eq_true in Hnd.
    apply andb_prop in Hde as [_ Hde].
    by rewrite (all2_props_stringify qs ps [] qs).
Qed.

(** C8 (as amended): for every producer and every two argument lists that
    are deep-equal and whose objects list their properties in the same
    order, [generateCacheKey] returns the same key (no explicit key is
    involved: the function is only called when [customQueryKey] is
    absent). *)
Theorem generateCacheKey_deepEqual_sameKeyOrder (fn : QueryFn) (a1 a2 : list Value) :
  forallb wellFormed a2 = true ->
  deepEqualArgs a1 a2 = true ->
  sameKeyOrderArgs a1 a2 = true ->
  generateCacheKey fn (Some a1) = generateCacheKey fn (Some a2).
Proof.
  intros Hwf Hde Hso. unfold generateCacheKey, JSON.stringifyArgs.
  by rewrite (stringify_deepEqual_sameKeyOrder (VArr 0 a1) (VArr 0 a2)).
Qed.

Lemma generateCacheKey_deepEqual_sameKeyOrder_witness :
  let a1 := [VObj 10 [("id", VNum (NInt 7)); ("tags", VArr 11 [VStr "a"; VNull])]] in
  let a2 := [VObj 20 [("id", VNum (NInt 7)); ("tags", VArr 21 [VStr "a"; VNull])]] in
  a1 <> a2 /\ generateCacheKey Sample.getUser (Some a1) = generateCacheKey Sample.getUser (Some a2).
Proof.
  split; [discriminate |].
  apply generateCacheKey_deepEqual_sameKeyOrder; reflexivity.
Defined.

(** C8 as stated fails: [{a: 1, b: 2}] and [{b: 2, a: 1}] are deep-equal,
    and [JSON.stringify] prints their properties in the order they are
    listed, so the two keys differ. *)
Lemma generateCacheKey_deepEqual_counterexample :
  let a1 := [VObj 10 [("a", VNum (NInt 1)); ("b", VNum (NInt 2))]] in
  let a2 := [VObj 20 [("b", VNum (NInt 2)); ("a", VNum (NInt 1))]] in
  (forallb wellFormed a1 = true /\ forallb wellFormed a2 = true)
  /\ deepEqualArgs a1 a2 = true
  /\ deepEqualArgs a2 a1 = true
  /\ String.eqb (generateCacheKey Sample.getUser (Some a1)) (generateCacheKey Sample.getUser (Some a2)) = false.
Proof. vm_compute. repeat split; reflexivity. Qed.

(** ** The execution engine *)

(** Runs an execution whose branch conditions are known: the monad is
    unfolded down to records, everything else is left as it stands. *)
Ltac exec_eval :=
  cbv beta iota zeta delta
    [ bind ret throw emit getHook modifyHook getWorld putWorld settle tryCatchFinally
      when cache_has cache_get cache_set newError normalizeError call
      completion hook world trace app andb fst snd id
      Query.runQuery Query.runQuery_resume Query.refetch Query.effect Query.cleanup
      Query.setData Query.setLoading Query.setError Query.setMounted
      Query.step Query.run
      Query.data Query.loading Query.error Query.isMounted
      Suspense.fetch Suspense.fetch_resume Suspense.effect Suspense.cleanup
      Suspense.refetch Suspense.setData Suspense.setError Suspense.setMounted
      Suspense.data Suspense.error Suspense.isMounted
      Mutation.mutate Mutation.mutate_resume Mutation.mutateFn Mutation.mutateFn_resume
      Mutation.setData Mutation.setLoading Mutation.setError Mutation.cleanup
      Mutation.invokeCallback Mutation.setWrapper Mutation.setMemo
      Mutation.data Mutation.loading Mutation.error Mutation.isMounted
      Mutation.mutate_memo Mutation.wrapper
      Mutation.useMutation
      Async.newFn Async.newFn_resume Async.setData Async.setLoading Async.setError
      Async.setMemo Async.invoke Async.resume Async.useAsync Async.useCallback
      Async.render
      Async.data Async.loading Async.error Async.memo ];
  cbn [cache next_ref].

Lemma bool_decide_is_Some_Some {A : Type} (x : A) : bool_decide (is_Some (Some x)) = true.
Proof. apply bool_decide_eq_true. eauto. Qed.

Lemma noCall_publications (h : Hook) (ps : list Publication) :
  noCall (map (Publish h) ps).
Proof.
  intros f a Hin. apply list_elem_of_fmap in Hin as (p & Heq & _). discriminate.
Qed.

(** *** What each phase of [runQuery] does *)

Lemma runQuery_hit (o : Query.QueryOptions) (v : Value) (st : Query.State) (w : World) :
  Query.useCacheOption o = true ->
  cache w !! Query.cacheKey o = Some v ->
  Query.runQuery o st w =
    {| completion := Normal Query.Settled;
       hook := {| Query.data := v; Query.loading := false; Query.error := Query.error st;
                  Query.isMounted := Query.isMounted st |};
       world := w;
       trace := [Publish UseQuery (SetData v); Publish UseQuery (SetLoading false)] |}.
Proof.
  intros Hc Hk. unfold Query.runQuery, cache_has, cache_get.
  exec_eval. rewrite Hc, Hk, bool_decide_is_Some_Some. exec_eval. rewrite Hk. reflexivity.
Qed.

Lemma runQuery_miss (o : Query.QueryOptions) (st : Query.State) (w : World) :
  Query.useCacheOption o && bool_decide (is_Some (cache w !! Query.cacheKey o)) = false ->
  Query.runQuery o st w =
    {| completion := Normal Query.Pending;
       hook := {| Query.data := Query.data st; Query.loading := true;
                  Query.error := Query.error st; Query.isMounted := Query.isMounted st |};
       world := w;
       trace := [Publish UseQuery (SetLoading true);
                 Call (Query.fn o) (Query.currentCallerArgs o)] |}.
Proof.
  intros Hmiss. unfold Query.runQuery, cache_has.
  exec_eval. cbv beta iota delta [andb] in Hmiss. rewrite Hmiss. exec_eval. reflexivity.
Qed.

Lemma runQuery_resume_detached (o : Query.QueryOptions) (res : Completion Value)
    (st : Query.State) (w : World) :
  Query.isMounted st = false ->
  Query.runQuery_resume o res st w =
    {| completion := Normal tt; hook := st; world := w; trace := [] |}.
Proof.
  destruct st as [d l e m]. simpl. intros ->. destruct res; exec_eval; reflexivity.
Qed.

Lemma runQuery_resume_normal (o : Query.QueryOptions) (v : Value)
    (st : Query.State) (w : World) :
  Query.isMounted st = true ->
  Query.runQuery_resume o (Normal v) st w =
    {| completion := Normal tt;
       hook := {| Query.data := v; Query.loading := false; Query.error := Query.error st;
                  Query.isMounted := true |};
       world := if Query.useCacheOption o
                then {| cache := <[Query.cacheKey o := v]> (cache w);
                        next_ref := next_ref w |}
                else w;
       trace := Publish UseQuery (SetData v)
                :: (if Query.useCacheOption o then [CacheSet (Query.cacheKey o) v] else [])
                ++ [Publish UseQuery (SetLoading false)] |}.
Proof.
  destruct st as [d l e m]. simpl. intros ->.
  destruct (Query.useCacheOption o) eqn:Hc; exec_eval; rewrite Hc; exec_eval; reflexivity.
Qed.

Lemma runQuery_resume_throw (o : Query.QueryOptions) (e : Value)
    (st : Query.State) (w : World) :
  Query.isMounted st = true ->
  Query.runQuery_resume o (Throw e) st w =
    {| completion := Normal tt;
       hook := {| Query.data := Query.data st; Query.loading := false;
                  Query.error := normalized e w; Query.isMounted := true |};
       world := if instanceofError e then w
                else {| cache := cache w; next_ref := S (next_ref w) |};
       trace := [Publish UseQuery (SetError (normalized e w));
                 Publish UseQuery (SetLoading false)] |}.
Proof.
  destruct st as [d l err m]. simpl. intros ->. unfold normalized.
  destruct (instanceofError e) eqn:He; exec_eval; rewrite He; exec_eval; reflexivity.
Qed.

(** C1 (as amended): the write that the round trip rests on sits behind
    the liveness check. A [useQuery] execution with caching enabled that
    resolves to [v] while its context is attached leaves [v] in the cache
    under its key [k]; as long as that entry stays as it is, every later
    [useQuery] execution for [k] with caching enabled (of this or of any
    other instance, attached or not) publishes [v] as data, then
    [loading = false], and does not call the producer, and the [data]
    cell then holds [v] (a [v] that is not a function). When the context
    detached before the producer resolved, the execution leaves the cache
    as it was, and a later execution for a key that had no entry calls
    the producer again. *)
Theorem useQuery_cache_round_trip (o1 o2 : Query.QueryOptions) (v : Value)
    (st1 st2 : Query.State) (w1 w2 : World) :
  let k := Query.cacheKey o1 in
  let first := Query.runQuery_resume o1 (Normal v) st1 w1 in
  let second := Query.runQuery o2 st2 w2 in
  Query.useCacheOption o1 = true ->
  Query.useCacheOption o2 = true ->
  Query.cacheKey o2 = k ->
  cache w2 !! k = cache (world first) !! k ->
  (Query.isMounted st1 = true ->
   cache (world first) !! k = Some v
   /\ completion second = Normal Query.Settled
   /\ trace second = [Publish UseQuery (SetData v); Publish UseQuery (SetLoading false)]
   /\ noCall (trace second)
   /\ world second = w2
   /\ (isFunction v = false -> Query.data (hook second) = v))
  /\ (Query.isMounted st1 = false ->
      cache (world first) = cache w1
      /\ (cache w1 !! k = None ->
          completion second = Normal Query.Pending
          /\ trace second = [Publish UseQuery (SetLoading true);
                             Call (Query.fn o2) (Query.currentCallerArgs o2)])).
Proof.
  intros k first second Hc1 Hc2 Hk2 Hsame. subst first second. split.
  - intros Hlive.
    assert (Hfirst : cache (world (Query.runQuery_resume o1 (Normal v) st1 w1)) !! k = Some v).
    { rewrite runQuery_resume_normal, Hc1 by done. apply lookup_insert_eq. }
    rewrite Hfirst in Hsame. rewrite <- Hk2 in Hsame.
    rewrite (runQuery_hit o2 v st2 w2 Hc2 Hsame).
    split; [exact Hfirst |]. split; [reflexivity |]. split; [reflexivity |].
    split; [apply (noCall_publications UseQuery [SetData v; SetLoading false]) |].
    split; [reflexivity |]. intros _. reflexivity.
  - intros Hdead. rewrite runQuery_resume_detached in Hsame |- * by done.
    split; [reflexivity |]. intros Hnone.
    cbn [world] in Hsame. rewrite Hnone, <- Hk2 in Hsame.
    rewrite runQuery_miss; [by split |].
    rewrite Hsame. rewrite (bool_decide_eq_false_2 (is_Some None)) by (by intros [x Hx]).
    apply andb_false_r.
Qed.

Lemma useQuery_cache_round_trip_witness :
  let st1 := hook (Query.effect Sample.query Query.initial Sample.emptyWorld) in
  let first := Query.runQuery_resume Sample.query (Normal (VStr "ok")) st1 Sample.emptyWorld in
  let second := Query.runQuery Sample.query (hook first) (world first) in
  cache (world first) !! Query.cacheKey Sample.query = Some (VStr "ok")
  /\ trace second = [Publish UseQuery (SetData (VStr "ok"));
                     Publish UseQuery (SetLoading false)]
  /\ noCall (trace second)
  /\ Query.data (hook second) = VStr "ok".
Proof.
  pose proof (useQuery_cache_round_trip Sample.query Sample.query (VStr "ok")
    (hook (Query.effect Sample.query Query.initial Sample.emptyWorld))
    (hook (Query.runQuery_resume Sample.query (Normal (VStr "ok"))
             (hook (Query.effect Sample.query Query.initial Sample.emptyWorld))
             Sample.emptyWorld))
    Sample.emptyWorld
    (world (Query.runQuery_resume Sample.query (Normal (VStr "ok"))
             (hook (Query.effect Sample.query Query.initial Sample.emptyWorld))
             Sample.emptyWorld))
    eq_refl eq_refl eq_refl eq_refl) as [Hattached _].
  pose proof (Hattached eq_refl) as (Hwritten & _ & Htrace & Hnocall & _ & Hdata).
  exact (conj Hwritten (conj Htrace (conj Hnocall (Hdata eq_refl)))).
Defined.

(** C1 as stated fails: a query with caching enabled whose context
    detaches while the producer is pending leaves no cache entry behind
    when the producer then resolves, so the next execution for the same
    key (the effect run again) publishes no data and calls the producer a
    second time. *)
Lemma useQuery_round_trip_after_detach_counterexample :
  let r := Query.run [Query.Effect Sample.query; Query.Cleanup;
                      Query.Resume Sample.query (Normal (VStr "ok"));
                      Query.Effect Sample.query]
             Query.initial Sample.emptyWorld in
  Query.useCacheOption Sample.query = true
  /\ trace r = [Publish UseQuery (SetLoading true); Call Sample.getUser [VNum (NInt 7)];
                Publish UseQuery (SetLoading true); Call Sample.getUser [VNum (NInt 7)]]
  /\ Query.data (hook r) = VUndefined
  /\ cache (world r) !! Query.cacheKey Sample.query = None.
Proof. vm_compute. repeat split. Qed.

(** *** What each phase of [useSuspenseQuery] does *)

Lemma fetch_resume_detached (o : Query.QueryOptions) (res : Completion Value)
    (st : Suspense.State) (w : World) :
  Suspense.isMounted st = false ->
  Suspense.fetch_resume o res st w =
    {| completion := Normal tt; hook := st; world := w; trace := [] |}.
Proof.
  destruct st as [d e m]. simpl. intros ->. destruct res; exec_eval; reflexivity.
Qed.

Lemma fetch_resume_normal (o : Query.QueryOptions) (v : Value)
    (st : Suspense.State) (w : World) :
  Suspense.isMounted st = true ->
  Suspense.fetch_resume o (Normal v) st w =
    {| completion := Normal tt;
       hook := {| Suspense.data := v; Suspense.error := Suspense.error st;
                  Suspense.isMounted := true |};
       world := if Query.useCacheOption o
                then {| cache := <[Query.cacheKey o := v]> (cache w);
                        next_ref := next_ref w |}
                else w;
       trace := Publish UseSuspenseQuery (SetData v)
                :: (if Query.useCacheOption o then [CacheSet (Query.cacheKey o) v] else []) |}.
Proof.
  destruct st as [d e m]. simpl. intros ->.
  destruct (Query.useCacheOption o) eqn:Hc; exec_eval; rewrite Hc; exec_eval; reflexivity.
Qed.

Lemma fetch_resume_throw (o : Query.QueryOptions) (e : Value)
    (st : Suspense.State) (w : World) :
  Suspense.isMounted st = true ->
  Suspense.fetch_resume o (Throw e) st w =
    {| completion := Normal tt;
       hook := {| Suspense.data := Suspense.data st; Suspense.error := normalized e w;
                  Suspense.isMounted := true |};
       world := if instanceofError e then w
                else {| cache := cache w; next_ref := S (next_ref w) |};
       trace := [Publish UseSuspenseQuery (SetError (normalized e w))] |}.
Proof.
  destruct st as [d err m]. simpl. intros ->. unfold normalized.
  destruct (instanceofError e) eqn:He; exec_eval; rewrite He; exec_eval; reflexivity.
Qed.

(** *** What each phase of [useAsync] does *)

Lemma invoke_eq (fn : QueryFn) (cb : Async.SyncFn) (args : list Value)
    (st : Async.State) (w : World) :
  Async.invoke fn cb args st w =
    {| completion := Normal (Async.captured_data cb);
       hook := {| Async.data := Async.data st; Async.loading := true;
                  Async.error := VUndefined; Async.memo := Async.memo st |};
       world := w;
       trace := [Publish UseAsync (SetError VUndefined); Publish UseAsync (SetLoading true);
                 Call fn args] |}.
Proof. destruct st. exec_eval. reflexivity. Qed.

Lemma resume_normal (v : Value) (st : Async.State) (w : World) :
  Async.resume (Normal v) st w =
    {| completion := Normal tt;
       hook := {| Async.data := v; Async.loading := false;
                  Async.error := Async.error st; Async.memo := Async.memo st |};
       world := w;
       trace := [Publish UseAsync (SetData v); Publish UseAsync (SetLoading false)] |}.
Proof. destruct st. exec_eval. reflexivity. Qed.

Lemma resume_throw (e : Value) (st : Async.State) (w : World) :
  Async.resume (Throw e) st w =
    {| completion := Normal tt;
       hook := {| Async.data := Async.data st; Async.loading := false;
                  Async.error := normalized e w; Async.memo := Async.memo st |};
       world := if instanceofError e then w
                else {| cache := cache w; next_ref := S (next_ref w) |};
       trace := [Publish UseAsync (SetError (normalized e w));
                 Publish UseAsync (SetLoading false)] |}.
Proof.
  destruct st. unfold normalized.
  destruct (instanceofError e) eqn:He; exec_eval; rewrite He; exec_eval; reflexivity.
Qed.

(** A render under an unchanged [fn] hands out the memoized closure: the
    [data] it returns is the one captured when the closure was made. *)
Lemma render_memoized (fn : QueryFn) (cb : Async.SyncFn) (st : Async.State) (w : World) :
  Async.memo st = Some cb ->
  Async.wraps cb = fn_ref fn ->
  exists cb', completion (Async.render fn st w) = Normal cb'
              /\ Async.captured_data cb' = Async.captured_data cb.
Proof.
  destruct st as [d l e m]. simpl. intros -> Hw.
  exec_eval. rewrite Hw, Nat.eqb_refl. exec_eval. eauto.
Qed.

(** *** What each phase of [useMutation] does *)

Lemma mutateFn_trace (o : Mutation.MutationOptions) (cb : Async.SyncFn)
    (args : list Value) (st : Mutation.State) (w : World) :
  trace (Mutation.mutateFn o cb args st w)
  = [Publish UseAsync (SetError VUndefined); Publish UseAsync (SetLoading true)]
    ++ (if Mutation.isMounted st then [Publish UseMutation (SetLoading true)] else [])
    ++ [Call (Mutation.fn o) args]
  /\ completion (Mutation.mutateFn o cb args st w) = Normal (Async.captured_data cb)
  /\ world (Mutation.mutateFn o cb args st w) = w.
Proof.
  destruct st as [d l e [|] mm wr]; exec_eval; repeat split.
Qed.

Lemma mutateFn_resume_detached (o : Mutation.MutationOptions) (args : list Value)
    (res : Completion Value) (st : Mutation.State) (w : World) :
  Mutation.isMounted st = false ->
  let r := Mutation.mutateFn_resume o args res st w in
  trace r = [Publish UseAsync (SetData VUndefined); Publish UseAsync (SetLoading false)]
  /\ world r = w
  /\ Mutation.data (hook r) = Mutation.data st
  /\ Mutation.loading (hook r) = Mutation.loading st
  /\ Mutation.error (hook r) = Mutation.error st.
Proof.
  destruct st as [d l e m mm wr]. simpl. intros ->.
  destruct res; exec_eval; repeat split.
Qed.

Lemma mutateFn_resume_throw (o : Mutation.MutationOptions) (args : list Value)
    (e : Value) (st : Mutation.State) (w : World) :
  Mutation.isMounted st = true ->
  let r := Mutation.mutateFn_resume o args (Throw e) st w in
  trace r = [Publish UseMutation (SetError (normalized e w));
             Publish UseMutation (SetLoading false);
             Publish UseAsync (SetData VUndefined); Publish UseAsync (SetLoading false)]
  /\ cache (world r) = cache w
  /\ Mutation.data (hook r) = Mutation.data st
  /\ Mutation.loading (hook r) = false
  /\ Mutation.error (hook r) = normalized e w.
Proof.
  destruct st as [d l err m mm wr]. simpl. intros ->. unfold normalized.
  destruct (instanceofError e) eqn:He; exec_eval; rewrite He; exec_eval; repeat split.
Qed.

Lemma mutateFn_resume_normal (o : Mutation.MutationOptions) (args : list Value)
    (v : Value) (st : Mutation.State) (w : World) :
  Mutation.isMounted st = true ->
  let out := callbackOutcome (Mutation.onSuccess o) v w in
  let r := Mutation.mutateFn_resume o args (Normal v) st w in
  Mutation.data (hook r) = v
  /\ Mutation.loading (hook r) = false
  /\ match fst out with
     | Normal _ =>
         cache (world r) = (if Mutation.useCacheOption o
                            then <[Mutation.cacheKey o args := v]> (cache (snd out))
                            else cache (snd out))
         /\ Mutation.error (hook r) = Mutation.error st
     | Throw e =>
         cache (world r) = cache (snd out)
         /\ Mutation.error (hook r) = normalized e (snd out)
     end.
Proof.
  destruct st as [d l err m mm wr]. simpl. intros ->. unfold callbackOutcome.
  destruct (Mutation.onSuccess o) as [cb|] eqn:Ho.
  - destruct (cb_run cb v w) as [[[]|e] w'] eqn:Hcb.
    + destruct (Mutation.useCacheOption o) eqn:Hc;
        exec_eval; rewrite Ho; exec_eval; rewrite Hcb; exec_eval; rewrite Hc; exec_eval;
        repeat split.
    + unfold normalized. destruct (instanceofError e) eqn:He;
        exec_eval; rewrite Ho; exec_eval; rewrite Hcb; exec_eval; rewrite He; exec_eval;
        repeat split.
  - destruct (Mutation.useCacheOption o) eqn:Hc;
      exec_eval; rewrite Ho; exec_eval; rewrite Hc; exec_eval; repeat split.
Qed.

(** ** The claims about the cache *)

(** C2 (as amended): the cache write-through sits inside the liveness
    check, next to the publication of [data]. With caching enabled, a
    query, mutation or suspense execution whose producer resolves to [v]
    writes [v] under its key when its context is still attached at that
    moment (for a mutation: and the success callback, if any, returns
    normally); when the context detached before, the cache is left as it
    was. *)
Theorem cache_write_through_when_attached (oq : Query.QueryOptions)
    (om : Mutation.MutationOptions) (args : list Value) (v : Value)
    (stq : Query.State) (stm : Mutation.State) (sts : Suspense.State) (w : World) :
  Query.useCacheOption oq = true ->
  Mutation.useCacheOption om = true ->
  let q := Query.runQuery_resume oq (Normal v) stq w in
  let m := Mutation.mutateFn_resume om args (Normal v) stm w in
  let s := Suspense.fetch_resume oq (Normal v) sts w in
  (Query.isMounted stq = true -> cache (world q) !! Query.cacheKey oq = Some v)
  /\ (Mutation.isMounted stm = true ->
      fst (callbackOutcome (Mutation.onSuccess om) v w) = Normal tt ->
      cache (world m) !! Mutation.cacheKey om args = Some v)
  /\ (Suspense.isMounted sts = true -> cache (world s) !! Query.cacheKey oq = Some v)
  /\ (Query.isMounted stq = false -> cache (world q) = cache w)
  /\ (Mutation.isMounted stm = false -> cache (world m) = cache w)
  /\ (Suspense.isMounted sts = false -> cache (world s) = cache w).
Proof.
  intros Hq Hm q m s. subst q m s. repeat split.
  - intros Hlive. rewrite runQuery_resume_normal, Hq by done. apply lookup_insert_eq.
  - intros Hlive Hcb.
    pose proof (mutateFn_resume_normal om args v stm w Hlive) as (_ & _ & H).
    rewrite Hcb, Hm in H. destruct H as [-> _]. apply lookup_insert_eq.
  - intros Hlive. rewrite fetch_resume_normal, Hq by done. apply lookup_insert_eq.
  - intros Hdead. by rewrite runQuery_resume_detached.
  - intros Hdead.
    by pose proof (mutateFn_resume_detached om args (Normal v) stm w Hdead) as (_ & -> & _).
  - intros Hdead. by rewrite fetch_resume_detached.
Qed.

Lemma cache_write_through_when_attached_witness :
  cache (world (Query.runQuery_resume Sample.query (Normal (VStr "ok"))
                  Query.initial Sample.emptyWorld))
    !! Query.cacheKey Sample.query = Some (VStr "ok").
Proof.
  exact (proj1 (cache_write_through_when_attached Sample.query Sample.mutation []
                  (VStr "ok") Query.initial Mutation.initial Suspense.initial
                  Sample.emptyWorld eq_refl eq_refl) eq_refl).
Defined.

(** C2 as stated fails: a query whose context detaches while the producer
    is pending leaves no cache entry behind when the producer then
    resolves, although caching is enabled. *)
Lemma cache_write_through_detached_counterexample :
  let r := Query.run [Query.Effect Sample.query; Query.Cleanup;
                      Query.Resume Sample.query (Normal (VStr "ok"))]
             Query.initial Sample.emptyWorld in
  Query.useCacheOption Sample.query = true
  /\ cache (world r) !! Query.cacheKey Sample.query = None
  /\ trace r = [Publish UseQuery (SetLoading true);
                Call Sample.getUser [VNum (NInt 7)]].
Proof. vm_compute. repeat split. Qed.

(** Membership in a log that is written out. *)
Ltac in_log := simpl; repeat constructor.
Ltac not_in_log :=
  let Hin := fresh "Hin" in
  simpl; intros Hin;
  repeat (apply elem_of_cons in Hin as [Hin|Hin]; [discriminate |]);
  by apply elem_of_nil in Hin.

(** C4 (as amended): neither [mutate] nor [useSuspenseQuery] looks the
    key up. Every call of the function returned as [mutate] and every
    [useSuspenseQuery] execution (from the effect or from [refetch])
    calls the producer with its argument list, whatever the cache holds,
    and publishes no data before the producer has completed. *)
Theorem mutate_and_suspense_always_call_producer (om : Mutation.MutationOptions)
    (cb : Async.SyncFn) (args : list Value) (stm : Mutation.State)
    (oq : Query.QueryOptions) (sts : Suspense.State) (w : World) :
  let m := Mutation.mutateFn om cb args stm w in
  Call (Mutation.fn om) args ∈ trace m
  /\ (forall h v, Publish h (SetData v) ∉ trace m)
  /\ world m = w
  /\ trace (Suspense.fetch oq sts w) = [Call (Query.fn oq) (Query.currentCallerArgs oq)]
  /\ trace (Suspense.effect oq sts w) = [Call (Query.fn oq) (Query.currentCallerArgs oq)]
  /\ trace (Suspense.refetch oq sts w) = [Call (Query.fn oq) (Query.currentCallerArgs oq)].
Proof.
  intros m. subst m.
  destruct (mutateFn_trace om cb args stm w) as (Ht & _ & Hw). rewrite Ht, Hw.
  split; [| split; [| split; [reflexivity |]]].
  - destruct (Mutation.isMounted stm); in_log.
  - intros h v. destruct (Mutation.isMounted stm); not_in_log.
  - destruct sts. repeat split.
Qed.

(** C4 as stated fails: with caching enabled and the key present in the
    cache, [mutate] and a suspense query still call the producer, and the
    cached value is not published. *)
Lemma mutate_cache_lookup_counterexample :
  let w := {| cache := {[ "k1" := VStr "cached" ]}; next_ref := 100 |} in
  let oq := {| Query.fn := Sample.getUser; Query.callerArgs := None;
               Query.useCache := None; Query.customQueryKey := Some "k1" |} in
  let cb := Sample.returned (Mutation.useMutation Sample.mutation Mutation.initial w) in
  (Mutation.useCacheOption Sample.mutation = true
   /\ cache w !! Mutation.cacheKey Sample.mutation [VNum (NInt 7)] = Some (VStr "cached")
   /\ trace (Mutation.mutateFn Sample.mutation cb [VNum (NInt 7)] Mutation.initial w)
      = [Publish UseAsync (SetError VUndefined); Publish UseAsync (SetLoading true);
         Publish UseMutation (SetLoading true); Call Sample.saveUser [VNum (NInt 7)]])
  /\ (Query.useCacheOption oq = true
      /\ cache w !! Query.cacheKey oq = Some (VStr "cached")
      /\ trace (Suspense.effect oq Suspense.initial w) = [Call Sample.getUser []]).
Proof. vm_compute. repeat split. Qed.

(** ** The claims about publications *)

(** The synchronous part of an execution, up to the producer call, never
    writes the cache. *)
Lemma start_leaves_world (oq : Query.QueryOptions) (stq : Query.State)
    (sts : Suspense.State) (fn : QueryFn) (cb : Async.SyncFn) (args : list Value)
    (sta : Async.State) (w : World) :
  world (Query.runQuery oq stq w) = w
  /\ world (Suspense.fetch oq sts w) = w
  /\ world (Async.invoke fn cb args sta w) = w.
Proof.
  split; [| split].
  - destruct (Query.useCacheOption oq && bool_decide (is_Some (cache w !! Query.cacheKey oq)))
      eqn:Hcond.
    + apply andb_prop in Hcond as [Hc Hhas].
      apply bool_decide_eq_true in Hhas as [v Hv].
      by rewrite (runQuery_hit oq v stq w).
    + by rewrite runQuery_miss.
  - reflexivity.
  - by rewrite invoke_eq.
Qed.

(** C5: when the producer throws or rejects, the execution publishes the
    normalized error and then [loading = false] (both behind the liveness
    check, like every publication made after the producer has completed),
    leaves [data] as it was and does not touch the cache, neither before
    the producer call nor after its failure. This holds for a query, for
    a mutation (whose wrapper then resumes and writes its own cells), for
    a suspense query (which has no [loading]) and for a function wrapped
    by [useAsync] (which has no liveness check). *)
Theorem failed_execution_keeps_data_and_cache (oq : Query.QueryOptions)
    (om : Mutation.MutationOptions) (args : list Value) (cb : Async.SyncFn) (e : Value)
    (stq0 stq : Query.State) (stm0 stm : Mutation.State) (sts : Suspense.State)
    (sta : Async.State) (w0 w : World) :
  let q := Query.runQuery_resume oq (Throw e) stq w in
  let m := Mutation.mutateFn_resume om args (Throw e) stm w in
  let s := Suspense.fetch_resume oq (Throw e) sts w in
  let a := Async.resume (Throw e) sta w in
  (world (Query.runQuery oq stq0 w0) = w0
   /\ trace q = (if Query.isMounted stq
                 then [Publish UseQuery (SetError (normalized e w));
                       Publish UseQuery (SetLoading false)]
                 else [])
   /\ Query.error (hook q) = (if Query.isMounted stq then normalized e w else Query.error stq)
   /\ Query.data (hook q) = Query.data stq
   /\ cache (world q) = cache w)
  /\ (world (Mutation.mutateFn om cb args stm0 w0) = w0
      /\ trace m = (if Mutation.isMounted stm
                    then [Publish UseMutation (SetError (normalized e w));
                          Publish UseMutation (SetLoading false)]
                    else [])
                   ++ [Publish UseAsync (SetData VUndefined);
                       Publish UseAsync (SetLoading false)]
      /\ Mutation.error (hook m)
         = (if Mutation.isMounted stm then normalized e w else Mutation.error stm)
      /\ Mutation.data (hook m) = Mutation.data stm
      /\ cache (world m) = cache w)
  /\ (trace s = (if Suspense.isMounted sts
                 then [Publish UseSuspenseQuery (SetError (normalized e w))]
                 else [])
      /\ Suspense.error (hook s)
         = (if Suspense.isMounted sts then normalized e w else Suspense.error sts)
      /\ Suspense.data (hook s) = Suspense.data sts
      /\ cache (world s) = cache w)
  /\ (trace a = [Publish UseAsync (SetError (normalized e w));
                 Publish UseAsync (SetLoading false)]
      /\ Async.error (hook a) = normalized e w
      /\ Async.data (hook a) = Async.data sta
      /\ cache (world a) = cache w).
Proof.
  intros q m s a. subst q m s a. split; [| split; [| split]].
  - split; [apply (start_leaves_world oq stq0 Suspense.initial (Query.fn oq) cb [] sta w0) |].
    destruct (Query.isMounted stq) eqn:Hlive.
    + rewrite runQuery_resume_throw by done. simpl.
      repeat split. by destruct (instanceofError e).
    + rewrite runQuery_resume_detached by done. repeat split.
  - split; [apply mutateFn_trace |].
    destruct (Mutation.isMounted stm) eqn:Hlive.
    + destruct (mutateFn_resume_throw om args e stm w Hlive) as (-> & -> & -> & _ & ->).
      repeat split.
    + destruct (mutateFn_resume_detached om args (Throw e) stm w Hlive)
        as (-> & -> & -> & _ & ->).
      repeat split.
  - destruct (Suspense.isMounted sts) eqn:Hlive.
    + rewrite fetch_resume_throw by done. simpl.
      repeat split. by destruct (instanceofError e).
    + rewrite fetch_resume_detached by done. repeat split.
  - rewrite resume_throw. simpl. repeat split. by destruct (instanceofError e).
Qed.

(** C6: a thrown [Error] is published as it is, the same object; any
    other thrown value is replaced by a newly made generic [Error], which
    is not the raw value. In that case [data] stays [undefined] when it
    was, and [loading] ends [false]. *)
Theorem thrown_value_is_normalized (o : Query.QueryOptions) (e : Value)
    (st : Query.State) (w : World) :
  Query.isMounted st = true ->
  let r := Query.runQuery_resume o (Throw e) st w in
  (instanceofError e = true ->
     Query.error (hook r) = e /\ Publish UseQuery (SetError e) ∈ trace r)
  /\ (instanceofError e = false ->
        Query.error (hook r) = VError (next_ref w) unexpectedMessage
        /\ Publish UseQuery (SetError (VError (next_ref w) unexpectedMessage)) ∈ trace r
        /\ Query.error (hook r) <> e
        /\ instanceofError (Query.error (hook r)) = true
        /\ (Query.data st = VUndefined -> Query.data (hook r) = VUndefined)
        /\ Query.loading (hook r) = false).
Proof.
  intros Hlive r. subst r. rewrite runQuery_resume_throw by done.
  unfold normalized. simpl. split; intros He; rewrite He.
  - split; [reflexivity | in_log].
  - repeat split; try done.
    + in_log.
    + intros <-. discriminate.
Qed.

Lemma thrown_value_is_normalized_witness :
  let r := Query.runQuery_resume Sample.query (Throw (VStr "boom"))
             (hook (Query.effect Sample.query Query.initial Sample.emptyWorld))
             Sample.emptyWorld in
  Query.error (hook r) = VError 100 unexpectedMessage
  /\ Query.data (hook r) = VUndefined
  /\ Query.loading (hook r) = false.
Proof.
  pose proof (proj2 (thrown_value_is_normalized Sample.query (VStr "boom")
                       (hook (Query.effect Sample.query Query.initial Sample.emptyWorld))
                       Sample.emptyWorld eq_refl) eq_refl)
    as (Herr & _ & _ & _ & Hdata & Hload).
  exact (conj Herr (conj (Hdata eq_refl) Hload)).
Defined.

(** The executions that check [isMounted] publish nothing once the
    context has detached, whatever the producer completes with. *)
Lemma guarded_resume_publishes_nothing (o : Query.QueryOptions) (res : Completion Value)
    (stq : Query.State) (sts : Suspense.State) (w : World) :
  trace (Query.runQuery_resume o res (hook (Query.cleanup stq w)) w) = []
  /\ trace (Suspense.fetch_resume o res (hook (Suspense.cleanup sts w)) w) = [].
Proof.
  split.
  - by rewrite runQuery_resume_detached.
  - by rewrite fetch_resume_detached.
Qed.

(** C3 at its failing input: [useAsync] has no liveness check. After the
    cleanup of [useMutation] has run, the completion of a pending
    [mutate] still publishes [data] and [loading] through the wrapper
    that [useAsync] put around it, and so does a function wrapped by
    [useAsync] directly, whose hook has no cleanup at all. *)
Theorem useAsync_publishes_after_detach (o : Mutation.MutationOptions)
    (args : list Value) (res : Completion Value) (stm : Mutation.State)
    (v : Value) (sta : Async.State) (w : World) :
  let detached := hook (Mutation.cleanup stm w) in
  Mutation.isMounted detached = false
  /\ trace (Mutation.mutateFn_resume o args res detached w)
     = [Publish UseAsync (SetData VUndefined); Publish UseAsync (SetLoading false)]
  /\ trace (Async.resume (Normal v) sta w)
     = [Publish UseAsync (SetData v); Publish UseAsync (SetLoading false)].
Proof.
  intros detached. split; [reflexivity |]. split.
  - by destruct (mutateFn_resume_detached o args res detached w eq_refl) as (-> & _).
  - by rewrite resume_normal.
Qed.

(** Neither phase of a successful [useQuery] execution writes the
    [error] cell, and no phase of a mutation clears its own. *)
Lemma error_is_never_cleared (o : Query.QueryOptions) (v : Value) (st : Query.State)
    (w : World) :
  (Query.useCacheOption o && bool_decide (is_Some (cache w !! Query.cacheKey o)) = false ->
   Query.error (hook (Query.runQuery o st w)) = Query.error st)
  /\ Query.error (hook (Query.runQuery_resume o (Normal v) st w)) = Query.error st.
Proof.
  split.
  - intros Hmiss. by rewrite runQuery_miss.
  - destruct (Query.isMounted st) eqn:Hlive.
    + by rewrite runQuery_resume_normal.
    + by rewrite runQuery_resume_detached.
Qed.

(** C7 at its failing input: with caching disabled, a run whose producer
    throws the string [boom] followed by a refetch whose producer
    resolves to 42 ends with [data = 42] and the error of the first run
    still in the [error] cell; no [SetError] with [undefined] is ever
    published. *)
Theorem stale_error_after_successful_refetch :
  let r := Query.run [Query.Effect Sample.uncachedQuery;
                      Query.Resume Sample.uncachedQuery (Throw (VStr "boom"));
                      Query.Refetch Sample.uncachedQuery;
                      Query.Resume Sample.uncachedQuery (Normal (VNum (NInt 42)))]
             Query.initial Sample.emptyWorld in
  Query.data (hook r) = VNum (NInt 42)
  /\ Query.loading (hook r) = false
  /\ Query.error (hook r) = VError 100 unexpectedMessage
  /\ trace r = [Publish UseQuery (SetLoading true);
                Call Sample.getUser [VNum (NInt 7)];
                Publish UseQuery (SetError (VError 100 unexpectedMessage));
                Publish UseQuery (SetLoading false);
                Publish UseQuery (SetLoading true);
                Call Sample.getUser [VNum (NInt 7)];
                Publish UseQuery (SetData (VNum (NInt 42)));
                Publish UseQuery (SetLoading false)].
Proof. vm_compute. repeat split. Qed.

(** A log that ends in [a] and does not hold [a] before holds it only
    there. *)
Lemma onlyLast_intro (a : Event) (init : list Event) :
  a ∉ init -> onlyLast a (init ++ [a]).
Proof. intros Hnot. by exists init. Qed.

(** C9: the whole log of one execution that misses the cache and whose
    context is attached when the producer completes is: [loading = true],
    the producer call, then the data (on success) or the error (on
    failure), the cache write if there is one, and [loading = false].
    So [loading = true] is published before the producer is called, the
    data or the error is published before [loading = false], and
    [loading = false] is the last entry of the log and occurs nowhere
    before. The same holds for a function wrapped by [useAsync], which
    has no liveness check to pass and whose log starts with the reset of
    [error]. *)
Theorem loading_false_is_published_last (o : Query.QueryOptions) (res : Completion Value)
    (st st' : Query.State) (w w' : World)
    (fn : QueryFn) (cb : Async.SyncFn) (args : list Value)
    (sta sta' : Async.State) (wa wa' : World) :
  Query.useCacheOption o && bool_decide (is_Some (cache w !! Query.cacheKey o)) = false ->
  Query.isMounted st' = true ->
  let t := trace (Query.runQuery o st w) ++ trace (Query.runQuery_resume o res st' w') in
  let ta := trace (Async.invoke fn cb args sta wa) ++ trace (Async.resume res sta' wa') in
  let outcome h w0 :=
    Publish h (match res with
               | Normal v => SetData v
               | Throw e => SetError (normalized e w0)
               end) in
  let written :=
    match res with
    | Normal v => if Query.useCacheOption o then [CacheSet (Query.cacheKey o) v] else []
    | Throw _ => []
    end in
  (t = [Publish UseQuery (SetLoading true);
        Call (Query.fn o) (Query.currentCallerArgs o);
        outcome UseQuery w']
       ++ written ++ [Publish UseQuery (SetLoading false)]
   /\ before (Publish UseQuery (SetLoading true))
             (Call (Query.fn o) (Query.currentCallerArgs o)) t
   /\ before (outcome UseQuery w') (Publish UseQuery (SetLoading false)) t
   /\ last t = Some (Publish UseQuery (SetLoading false))
   /\ onlyLast (Publish UseQuery (SetLoading false)) t)
  /\ (ta = [Publish UseAsync (SetError VUndefined);
            Publish UseAsync (SetLoading true);
            Call fn args;
            outcome UseAsync wa';
            Publish UseAsync (SetLoading false)]
      /\ before (Publish UseAsync (SetLoading true)) (Call fn args) ta
      /\ before (outcome UseAsync wa') (Publish UseAsync (SetLoading false)) ta
      /\ last ta = Some (Publish UseAsync (SetLoading false))
      /\ onlyLast (Publish UseAsync (SetLoading false)) ta).
Proof.
  intros Hmiss Hlive t ta outcome written. subst t ta outcome written.
  rewrite runQuery_miss, invoke_eq by done. split.
  - destruct res as [v|e].
    + rewrite runQuery_resume_normal by done. simpl. split; [| split; [| split; [| split]]].
      * by destruct (Query.useCacheOption o).
      * by exists [], [], (Publish UseQuery (SetData v)
                            :: (if Query.useCacheOption o
                                then [CacheSet (Query.cacheKey o) v] else [])
                            ++ [Publish UseQuery (SetLoading false)]).
      * exists [Publish UseQuery (SetLoading true);
                Call (Query.fn o) (Query.currentCallerArgs o)],
               (if Query.useCacheOption o then [CacheSet (Query.cacheKey o) v] else []),
               []. reflexivity.
      * by destruct (Query.useCacheOption o).
      * destruct (Query.useCacheOption o).
        -- apply (onlyLast_intro _ [Publish UseQuery (SetLoading true);
                                    Call (Query.fn o) (Query.currentCallerArgs o);
                                    Publish UseQuery (SetData v);
                                    CacheSet (Query.cacheKey o) v]).
           not_in_log.
        -- apply (onlyLast_intro _ [Publish UseQuery (SetLoading true);
                                    Call (Query.fn o) (Query.currentCallerArgs o);
                                    Publish UseQuery (SetData v)]).
           not_in_log.
    + rewrite runQuery_resume_throw by done. simpl. split; [| split; [| split; [| split]]].
      * reflexivity.
      * by exists [], [], [Publish UseQuery (SetError (normalized e w'));
                           Publish UseQuery (SetLoading false)].
      * by exists [Publish UseQuery (SetLoading true);
                   Call (Query.fn o) (Query.currentCallerArgs o)], [], [].
      * reflexivity.
      * apply (onlyLast_intro _ [Publish UseQuery (SetLoading true);
                                 Call (Query.fn o) (Query.currentCallerArgs o);
                                 Publish UseQuery (SetError (normalized e w'))]).
        not_in_log.
  - destruct res as [v|e].
    + rewrite resume_normal. simpl. split; [| split; [| split; [| split]]].
      * reflexivity.
      * by exists [Publish UseAsync (SetError VUndefined)], [],
                  [Publish UseAsync (SetData v); Publish UseAsync (SetLoading false)].
      * by exists [Publish UseAsync (SetError VUndefined);
                   Publish UseAsync (SetLoading true); Call fn args], [], [].
      * reflexivity.
      * apply (onlyLast_intro _ [Publish UseAsync (SetError VUndefined);
                                 Publish UseAsync (SetLoading true); Call fn args;
                                 Publish UseAsync (SetData v)]).
        not_in_log.
    + rewrite resume_throw. simpl. split; [| split; [| split; [| split]]].
      * reflexivity.
      * by exists [Publish UseAsync (SetError VUndefined)], [],
                  [Publish UseAsync (SetError (normalized e wa'));
                   Publish UseAsync (SetLoading false)].
      * by exists [Publish UseAsync (SetError VUndefined);
                   Publish UseAsync (SetLoading true); Call fn args], [], [].
      * reflexivity.
      * apply (onlyLast_intro _ [Publish UseAsync (SetError VUndefined);
                                 Publish UseAsync (SetLoading true); Call fn args;
                                 Publish UseAsync (SetError (normalized e wa'))]).
        not_in_log.
Qed.

Lemma loading_false_is_published_last_witness :
  let t := trace (Query.run [Query.Effect Sample.query;
                             Query.Resume Sample.query (Normal (VStr "ok"))]
                    Query.initial Sample.emptyWorld) in
  t = [Publish UseQuery (SetLoading true); Call Sample.getUser [VNum (NInt 7)];
       Publish UseQuery (SetData (VStr "ok"));
       CacheSet (Query.cacheKey Sample.query) (VStr "ok");
       Publish UseQuery (SetLoading false)]
  /\ before (Publish UseQuery (SetLoading true)) (Call Sample.getUser [VNum (NInt 7)]) t
  /\ before (Publish UseQuery (SetData (VStr "ok"))) (Publish UseQuery (SetLoading false)) t
  /\ last t = Some (Publish UseQuery (SetLoading false))
  /\ onlyLast (Publish UseQuery (SetLoading false)) t.
Proof.
  exact (proj1 (loading_false_is_published_last Sample.query (Normal (VStr "ok"))
                  (hook (Query.setMounted true Query.initial Sample.emptyWorld))
                  (hook (Query.effect Sample.query Query.initial Sample.emptyWorld))
                  Sample.emptyWorld Sample.emptyWorld
                  Sample.getUser
                  (Sample.returned (Async.render Sample.getUser Async.initial Sample.emptyWorld))
                  [] Async.initial Async.initial Sample.emptyWorld Sample.emptyWorld
                  eq_refl eq_refl)).
Defined.

(** C10 at its failing input: the closure returns the [data] of the
    render that created it, and [useCallback] keeps that closure for as
    long as [fn] is the same function. With a stable [fn], a run that
    resolved to 42 and a render after it, the next call still returns
    [undefined], not 42. *)
Theorem useAsync_returns_data_of_memoized_closure :
  let r1 := Async.render Sample.getUser Async.initial Sample.emptyWorld in
  let r2 := Async.invoke Sample.getUser (Sample.returned r1) [] (hook r1) (world r1) in
  let r3 := Async.resume (Normal (VNum (NInt 42))) (hook r2) (world r2) in
  let r4 := Async.render Sample.getUser (hook r3) (world r3) in
  let r5 := Async.invoke Sample.getUser (Sample.returned r4) [] (hook r4) (world r4) in
  completion r2 = Normal VUndefined
  /\ Async.data (hook r4) = VNum (NInt 42)
  /\ Async.state_loading (Async.state (Sample.returned r4)) = false
  /\ completion r5 = Normal VUndefined.
Proof. vm_compute. repeat split. Qed.

(** With an [fn] that is a new function on every render (an inline arrow
    function, as in the examples of the repository) each render makes a
    new closure, and the call after a completed run does return that
    run's data. *)
Example useAsync_fresh_closure_returns_previous_data :
  let inline1 := {| fn_ref := 11; fn_name := EmptyString; fn_toString := "async () => { }" |} in
  let inline2 := {| fn_ref := 12; fn_name := EmptyString; fn_toString := "async () => { }" |} in
  let r1 := Async.render inline1 Async.initial Sample.emptyWorld in
  let r2 := Async.invoke inline1 (Sample.returned r1) [] (hook r1) (world r1) in
  let r3 := Async.resume (Normal (VNum (NInt 42))) (hook r2) (world r2) in
  let r4 := Async.render inline2 (hook r3) (world r3) in
  let r5 := Async.invoke inline2 (Sample.returned r4) [] (hook r4) (world r4) in
  completion r2 = Normal VUndefined /\ completion r5 = Normal (VNum (NInt 42)).
Proof. vm_compute. repeat split. Qed.

(** The function returned as [mutate] always returns [undefined]: the
    wrapped [mutate] resolves to nothing, so the wrapper's [data] cell
    never holds anything else. *)
Lemma mutateFn_resume_wrapper_data (o : Mutation.MutationOptions) (args : list Value)
    (res : Completion Value) (st : Mutation.State) (w : World) :
  Async.data (Mutation.wrapper (hook (Mutation.mutateFn_resume o args res st w)))
  = VUndefined.
Proof.
  destruct st as [d l err [|] mm wr], res as [v|e].
  - destruct (Mutation.onSuccess o) as [cb|] eqn:Ho.
    + destruct (cb_run cb v w) as [[[]|ex] w'] eqn:Hcb.
      * destruct (Mutation.useCacheOption o) eqn:Hc;
          exec_eval; rewrite Ho; exec_eval; rewrite Hcb; exec_eval; rewrite Hc; exec_eval;
          reflexivity.
      * destruct (instanceofError ex) eqn:He;
          exec_eval; rewrite Ho; exec_eval; rewrite Hcb; exec_eval; rewrite He; exec_eval;
          reflexivity.
    + destruct (Mutation.useCacheOption o) eqn:Hc;
        exec_eval; rewrite Ho; exec_eval; rewrite Hc; exec_eval; reflexivity.
  - destruct (instanceofError e) eqn:He; exec_eval; rewrite He; exec_eval; reflexivity.
  - exec_eval. reflexivity.
  - exec_eval. reflexivity.
Qed.

(** * Further properties of the code *)

(** ** QueryClient *)

Lemma invalidateKey_eq {S : Type} (key : string) (st : S) (w : World) :
  QueryClient.invalidateKey key st w
  = mkResult (Normal tt) st
      {| cache := delete key (cache w); next_ref := next_ref w |} [].
Proof.
  unfold QueryClient.invalidateKey, QueryClient.cache_delete.
  destruct (cache w !! key) as [v|] eqn:Hk.
  - exec_eval. rewrite Hk, bool_decide_is_Some_Some. exec_eval. reflexivity.
  - exec_eval. rewrite Hk.
    rewrite (bool_decide_eq_false_2 (is_Some None)) by (by intros [x Hx]).
    exec_eval. rewrite (delete_id (cache w) key Hk). by destruct w.
Qed.

Lemma invalidateKeys_eq {S : Type} (keys : list string) : forall (st : S) (w : World),
  QueryClient.invalidateKeys keys st w
  = mkResult (Normal tt) st
      {| cache := foldl (fun c key => delete key c) (cache w) keys;
         next_ref := next_ref w |} [].
Proof.
  induction keys as [|key keys IH]; intros st w.
  - by destruct w.
  - cbn [QueryClient.invalidateKeys]. unfold bind at 1.
    rewrite invalidateKey_eq, IH. reflexivity.
Qed.

Lemma lookup_foldl_delete (keys : list string) : forall (c : gmap string Value) (k : string),
  foldl (fun c key => delete key c) c keys !! k
  = if bool_decide (k ∈ keys) then None else c !! k.
Proof.
  induction keys as [|key keys IH]; intros c k; simpl.
  - reflexivity.
  - rewrite IH. destruct (decide (k = key)) as [->|Hne].
    + rewrite lookup_delete_eq, (bool_decide_eq_true_2 (key ∈ key :: keys)) by left.
      by destruct (bool_decide (key ∈ keys)).
    + rewrite lookup_delete_ne by done.
      destruct (decide (k ∈ keys)) as [Hin|Hnin].
      * by rewrite !bool_decide_eq_true_2 by (try right; done).
      * rewrite !bool_decide_eq_false_2; try done.
        intros Hin. apply elem_of_cons in Hin as [?|?]; done.
Qed.

(** [invalidateKey(k)] removes the entry under [k] and nothing else; it
    changes nothing when [k] has no entry, and a second call changes
    nothing more. No hook state is touched. *)
Theorem invalidateKey_removes_only_its_key (k : string) (st st' : Query.State) (w : World) :
  let r := QueryClient.invalidateKey k st w in
  cache (world r) !! k = None
  /\ (forall k', k' <> k -> cache (world r) !! k' = cache w !! k')
  /\ (cache w !! k = None -> world r = w)
  /\ world (QueryClient.invalidateKey k st' (world r)) = world r
  /\ hook r = st.
Proof.
  intros r. subst r. rewrite !invalidateKey_eq. cbn [world hook cache next_ref].
  split; [apply lookup_delete_eq |]. split; [| split; [| split]].
  - intros k' Hne. by apply lookup_delete_ne.
  - intros Hk. rewrite (delete_id _ _ Hk). by destruct w.
  - by rewrite delete_delete_eq.
  - reflexivity.
Qed.

(** [invalidateKeys(keys)] removes exactly the entries whose key is in
    the list: the outcome depends neither on the order of the keys, nor
    on repetitions, nor on keys that have no entry. *)
Theorem invalidateKeys_removes_exactly_the_listed (keys keys' : list string)
    (st : Query.State) (w : World) :
  (forall k, k ∈ keys <-> k ∈ keys') ->
  let r := QueryClient.invalidateKeys keys st w in
  (forall k, cache (world r) !! k = if bool_decide (k ∈ keys) then None else cache w !! k)
  /\ world (QueryClient.invalidateKeys keys' st w) = world r
  /\ hook r = st.
Proof.
  intros Hsame r. subst r. rewrite !invalidateKeys_eq. cbn [world hook cache next_ref].
  split; [| split; [| reflexivity]].
  - intros k. apply lookup_foldl_delete.
  - f_equal. apply map_eq. intros k. rewrite !lookup_foldl_delete.
    destruct (decide (k ∈ keys)) as [Hin|Hnin].
    + rewrite (bool_decide_eq_true_2 (k ∈ keys) Hin).
      by rewrite (bool_decide_eq_true_2 (k ∈ keys')) by (by apply Hsame).
    + rewrite (bool_decide_eq_false_2 (k ∈ keys) Hnin).
      by rewrite (bool_decide_eq_false_2 (k ∈ keys')) by (by rewrite <- Hsame).
Qed.

Lemma invalidateKeys_removes_exactly_the_listed_witness :
  let w := {| cache := {[ "a" := VNum (NInt 1); "b" := VNum (NInt 2); "c" := VNull ]};
              next_ref := 0 |} in
  world (QueryClient.invalidateKeys ["b"; "a"; "zz"; "b"] Query.initial w)
  = world (QueryClient.invalidateKeys ["zz"; "a"; "b"] Query.initial w).
Proof.
  refine (eq_sym (proj1 (proj2 (invalidateKeys_removes_exactly_the_listed
            ["zz"; "a"; "b"] ["b"; "a"; "zz"; "b"] Query.initial
            {| cache := {[ "a" := VNum (NInt 1); "b" := VNum (NInt 2); "c" := VNull ]};
               next_ref := 0 |} _)))).
  intros k. rewrite !elem_of_cons, !elem_of_nil. tauto.
Defined.

(** [clearCache()] and [invalidateAll()] empty the cache, which is what
    [invalidateKeys] does when given every key the cache holds; the heap
    is not touched. *)
Theorem clearCache_invalidates_every_key (st : Query.State) (w : World) :
  let all := map fst (map_to_list (cache w)) in
  world (QueryClient.clearCache st w) = {| cache := ∅; next_ref := next_ref w |}
  /\ world (QueryClient.invalidateAll st w) = world (QueryClient.clearCache st w)
  /\ world (QueryClient.invalidateKeys all st w) = world (QueryClient.clearCache st w)
  /\ (forall k, cache (world (QueryClient.clearCache st w)) !! k = None).
Proof.
  intros all. subst all. rewrite invalidateKeys_eq. unfold QueryClient.invalidateAll.
  assert (Hclear : world (QueryClient.clearCache st w)
                   = {| cache := ∅; next_ref := next_ref w |}).
  { unfold QueryClient.clearCache. exec_eval. reflexivity. }
  rewrite Hclear. cbn [world cache]. repeat split.
  f_equal. apply map_eq. intros k. rewrite lookup_foldl_delete, lookup_empty.
  destruct (cache w !! k) as [v|] eqn:Hk.
  - rewrite bool_decide_eq_true_2; [done |].
    apply list_elem_of_fmap. exists (k, v). split; [done |].
    by apply elem_of_map_to_list.
  - by destruct (bool_decide _).
Qed.

(** ** One [useQuery] instance over time *)

(** Sequencing after a step that is known to complete normally. *)
Lemma bind_normal {S A B : Type} (m : Exec S A) (k : A -> Exec S B) (st : S) (w : World)
    (a : A) (st1 : S) (w1 : World) (t1 : list Event) :
  m st w = mkResult (Normal a) st1 w1 t1 ->
  bind m k st w
  = mkResult (completion (k a st1 w1)) (hook (k a st1 w1)) (world (k a st1 w1))
      (t1 ++ trace (k a st1 w1)).
Proof. intros Hm. unfold bind. rewrite Hm. by destruct (k a st1 w1). Qed.

Lemma effect_eq (o : Query.QueryOptions) (st : Query.State) (w : World) :
  Query.effect o st w
  = Query.runQuery o {| Query.data := Query.data st; Query.loading := Query.loading st;
                        Query.error := Query.error st; Query.isMounted := true |} w.
Proof.
  unfold Query.effect, Query.setMounted, bind at 1, modifyHook.
  by destruct (Query.runQuery o _ w).
Qed.

(** [runQuery] takes one of its two branches. *)
Lemma runQuery_cases (o : Query.QueryOptions) (st : Query.State) (w : World) :
  (exists v, Query.useCacheOption o = true /\ cache w !! Query.cacheKey o = Some v
             /\ Query.runQuery o st w
                = mkResult (Normal Query.Settled)
                    {| Query.data := v; Query.loading := false;
                       Query.error := Query.error st;
                       Query.isMounted := Query.isMounted st |}
                    w [Publish UseQuery (SetData v); Publish UseQuery (SetLoading false)])
  \/ (Query.useCacheOption o && bool_decide (is_Some (cache w !! Query.cacheKey o)) = false
      /\ Query.runQuery o st w
         = mkResult (Normal Query.Pending)
             {| Query.data := Query.data st; Query.loading := true;
                Query.error := Query.error st; Query.isMounted := Query.isMounted st |}
             w [Publish UseQuery (SetLoading true);
                Call (Query.fn o) (Query.currentCallerArgs o)]).
Proof.
  destruct (Query.useCacheOption o && bool_decide (is_Some (cache w !! Query.cacheKey o)))
    eqn:Hcond.
  - left. apply andb_prop in Hcond as [Hc Hhas].
    apply bool_decide_eq_true in Hhas as [v Hv].
    exists v. split; [done |]. split; [done |]. by apply runQuery_hit.
  - right. split; [done |]. by apply runQuery_miss.
Qed.

(** What one step does to the [error] cell, to the liveness flag and to
    the cache. *)
Lemma step_effect (a : Query.Action) (st : Query.State) (w : World) :
  let r := Query.step a st w in
  completion r = Normal tt
  /\ Query.error (hook r)
     = match a with
       | Query.Resume o (Throw e) =>
           if Query.isMounted st then normalized e w else Query.error st
       | _ => Query.error st
       end
  /\ Query.isMounted (hook r)
     = match a with
       | Query.Effect _ => true
       | Query.Cleanup => false
       | _ => Query.isMounted st
       end
  /\ cache (world r)
     = match a with
       | Query.Resume o (Normal v) =>
           if Query.isMounted st && Query.useCacheOption o
           then <[Query.cacheKey o := v]> (cache w)
           else cache w
       | _ => cache w
       end.
Proof.
  destruct a as [o| |o|o [v|e]]; cbn [Query.step]; cbv zeta.
  - destruct (runQuery_cases o
                {| Query.data := Query.data st; Query.loading := Query.loading st;
                   Query.error := Query.error st; Query.isMounted := true |} w)
      as [(v & _ & _ & E)|[_ E]];
      rewrite <- effect_eq in E; by rewrite !(bind_normal _ _ _ _ _ _ _ _ E).
  - by destruct st.
  - destruct (runQuery_cases o st w) as [(v & _ & _ & E)|[_ E]];
      unfold Query.refetch; by rewrite !(bind_normal _ _ _ _ _ _ _ _ E).
  - destruct (Query.isMounted st) eqn:Hlive.
    + rewrite runQuery_resume_normal by done. cbn [completion hook world].
      by destruct (Query.useCacheOption o).
    + by rewrite runQuery_resume_detached.
  - destruct (Query.isMounted st) eqn:Hlive.
    + rewrite runQuery_resume_throw by done. cbn [completion hook world].
      by destruct (instanceofError e).
    + by rewrite runQuery_resume_detached.
Qed.

Lemma run_cons (a : Query.Action) (acts : list Query.Action) (st : Query.State) (w : World) :
  let r1 := Query.step a st w in
  let r := Query.run acts (hook r1) (world r1) in
  Query.run (a :: acts) st w = mkResult (completion r) (hook r) (world r) (trace r1 ++ trace r).
Proof.
  cbv zeta. cbn [Query.run].
  pose proof (step_effect a st w) as [Hc _]. cbv zeta in Hc.
  destruct (Query.step a st w) as [c st1 w1 t1] eqn:E. cbn [completion] in Hc. subst c.
  by rewrite (bind_normal _ _ _ _ _ _ _ _ E).
Qed.

(** A property of the hook state and the world that every step of a run
    keeps holds at its end. *)
Lemma run_preserves (P : Query.State -> World -> Prop) (acts : list Query.Action) :
  (forall a st w, a ∈ acts -> P st w ->
                  P (hook (Query.step a st w)) (world (Query.step a st w))) ->
  forall st w, P st w -> P (hook (Query.run acts st w)) (world (Query.run acts st w)).
Proof.
  induction acts as [|a acts IH]; intros Hstep st w HP.
  - exact HP.
  - rewrite run_cons. cbn [hook world]. apply IH.
    + intros a' st' w' Hin. apply Hstep. by right.
    + apply Hstep; [by left | exact HP].
Qed.

Lemma normalized_is_error (e : Value) (w : World) : instanceofError (normalized e w) = true.
Proof. unfold normalized. by destruct (instanceofError e) eqn:He. Qed.

(** Once the [error] cell of a [useQuery] instance holds an [Error] it
    holds one for good: no effect run, cleanup, refetch, cache hit or
    successful completion ever sets it back to [undefined]. *)
Theorem useQuery_error_is_never_reset (acts : list Query.Action) (st : Query.State)
    (w : World) :
  instanceofError (Query.error st) = true ->
  instanceofError (Query.error (hook (Query.run acts st w))) = true.
Proof.
  intros Herr.
  apply (run_preserves (fun st _ => instanceofError (Query.error st) = true) acts);
    [| exact Herr].
  intros a st' w' _ HP. pose proof (step_effect a st' w') as (_ & -> & _).
  destruct a as [o| |o|o [v|e]]; try exact HP.
  destruct (Query.isMounted st'); [apply normalized_is_error | exact HP].
Qed.

Lemma useQuery_error_is_never_reset_witness :
  instanceofError
    (Query.error
       (hook (Query.run [Query.Refetch Sample.query;
                         Query.Resume Sample.query (Normal (VStr "ok"));
                         Query.Cleanup; Query.Effect Sample.query]
                {| Query.data := VUndefined; Query.loading := false;
                   Query.error := VError 5 "network"; Query.isMounted := true |}
                Sample.emptyWorld))) = true.
Proof.
  exact (useQuery_error_is_never_reset
           [Query.Refetch Sample.query; Query.Resume Sample.query (Normal (VStr "ok"));
            Query.Cleanup; Query.Effect Sample.query]
           {| Query.data := VUndefined; Query.loading := false;
              Query.error := VError 5 "network"; Query.isMounted := true |}
           Sample.emptyWorld eq_refl).
Defined.

(** A run of a [useQuery] instance never removes a cache entry: a key
    that has an entry before the run has one after it. *)
Theorem useQuery_never_evicts (acts : list Query.Action) (st : Query.State)
    (w : World) (k : string) :
  is_Some (cache w !! k) ->
  is_Some (cache (world (Query.run acts st w)) !! k).
Proof.
  intros Hk.
  apply (run_preserves (fun _ w' => is_Some (cache w' !! k)) acts); [| exact Hk].
  intros a st' w' _ HP. pose proof (step_effect a st' w') as (_ & _ & _ & ->).
  destruct a as [o| |o|o [v|e]]; try exact HP.
  destruct (Query.isMounted st' && Query.useCacheOption o); [| exact HP].
  destruct (decide (Query.cacheKey o = k)) as [->|Hne].
  - rewrite lookup_insert_eq. eauto.
  - by rewrite lookup_insert_ne.
Qed.

Lemma useQuery_never_evicts_witness :
  is_Some (cache (world (Query.run [Query.Effect Sample.query;
                                    Query.Resume Sample.query (Normal VNull);
                                    Query.Cleanup]
                           Query.initial
                           {| cache := {[ "other" := VStr "kept" ]}; next_ref := 0 |}))
             !! "other").
Proof.
  apply (useQuery_never_evicts
           [Query.Effect Sample.query; Query.Resume Sample.query (Normal VNull);
            Query.Cleanup]
           Query.initial {| cache := {[ "other" := VStr "kept" ]}; next_ref := 0 |}
           "other").
  by exists (VStr "kept").
Defined.

(** A run of a [useQuery] instance writes the cache only under the keys
    of the executions that complete in it: any other key holds after the
    run what it held before. *)
Theorem useQuery_touches_only_its_keys (acts : list Query.Action) (st : Query.State)
    (w : World) (k : string) :
  (forall o res, Query.Resume o res ∈ acts -> Query.cacheKey o <> k) ->
  cache (world (Query.run acts st w)) !! k = cache w !! k.
Proof.
  intros Hkeys.
  apply (run_preserves (fun _ w' => cache w' !! k = cache w !! k) acts); [| reflexivity].
  intros a st' w' Hin HP. pose proof (step_effect a st' w') as (_ & _ & _ & ->).
  destruct a as [o| |o|o [v|e]]; try exact HP.
  destruct (Query.isMounted st' && Query.useCacheOption o); [| exact HP].
  rewrite lookup_insert_ne; [exact HP |]. by apply (Hkeys o (Normal v)).
Qed.

Lemma useQuery_touches_only_its_keys_witness :
  cache (world (Query.run [Query.Effect Sample.query;
                           Query.Resume Sample.query (Normal (VStr "ok"))]
                  Query.initial
                  {| cache := {[ "other" := VStr "kept" ]}; next_ref := 0 |}))
    !! "other"
  = Some (VStr "kept").
Proof.
  refine (useQuery_touches_only_its_keys
            [Query.Effect Sample.query; Query.Resume Sample.query (Normal (VStr "ok"))]
            Query.initial {| cache := {[ "other" := VStr "kept" ]}; next_ref := 0 |}
            "other" _).
  intros o res Hin.
  apply elem_of_cons in Hin as [Hin|Hin]; [discriminate |].
  apply elem_of_cons in Hin as [Hin|Hin]; [| by apply elem_of_nil in Hin].
  injection Hin as -> _. by vm_compute.
Defined.

(** ** How the cache, the client and the hooks compose *)

(** After a successful execution has cached [v] under its key,
    [invalidateKey] of that key makes the next [useQuery] execution for
    the key call the producer again instead of serving [v]. *)
Theorem invalidated_key_is_fetched_again (o1 o2 : Query.QueryOptions) (v : Value)
    (st1 st2 stc : Query.State) (w : World) :
  Query.useCacheOption o1 = true ->
  Query.isMounted st1 = true ->
  Query.cacheKey o2 = Query.cacheKey o1 ->
  let w1 := world (Query.runQuery_resume o1 (Normal v) st1 w) in
  let w2 := world (QueryClient.invalidateKey (Query.cacheKey o1) stc w1) in
  let r := Query.runQuery o2 st2 w2 in
  cache w1 !! Query.cacheKey o1 = Some v
  /\ cache w2 !! Query.cacheKey o1 = None
  /\ completion r = Normal Query.Pending
  /\ trace r = [Publish UseQuery (SetLoading true);
                Call (Query.fn o2) (Query.currentCallerArgs o2)].
Proof.
  intros Hc Hlive Hk w1 w2 r. subst w1 w2 r.
  rewrite invalidateKey_eq, runQuery_resume_normal, Hc by done.
  cbn [world cache next_ref].
  split; [apply lookup_insert_eq |]. split; [apply lookup_delete_eq |].
  rewrite runQuery_miss; [done |].
  cbn [cache]. rewrite Hk, lookup_delete_eq.
  rewrite (bool_decide_eq_false_2 (is_Some None)) by (by intros [x Hx]).
  apply andb_false_r.
Qed.

Lemma invalidated_key_is_fetched_again_witness :
  let w1 := world (Query.runQuery_resume Sample.query (Normal (VStr "ok"))
                     Query.initial Sample.emptyWorld) in
  let w2 := world (QueryClient.invalidateKey (Query.cacheKey Sample.query)
                     Query.initial w1) in
  trace (Query.runQuery Sample.query Query.initial w2)
  = [Publish UseQuery (SetLoading true); Call Sample.getUser [VNum (NInt 7)]].
Proof.
  exact (proj2 (proj2 (proj2 (invalidated_key_is_fetched_again Sample.query Sample.query
                                (VStr "ok") Query.initial Query.initial Query.initial
                                Sample.emptyWorld eq_refl eq_refl eq_refl)))).
Defined.

(** With [useCache: false] the cache plays no part: [runQuery] calls the
    producer whatever the cache holds, and neither phase of the execution
    changes the cache, whatever the producer completes with. *)
Theorem disabled_cache_is_never_used (o : Query.QueryOptions) (res : Completion Value)
    (st st' : Query.State) (w w' : World) :
  Query.useCache o = Some false ->
  let r := Query.runQuery o st w in
  completion r = Normal Query.Pending
  /\ trace r = [Publish UseQuery (SetLoading true);
                Call (Query.fn o) (Query.currentCallerArgs o)]
  /\ world r = w
  /\ cache (world (Query.runQuery_resume o res st' w')) = cache w'.
Proof.
  intros Hoff r. subst r.
  assert (Hc : Query.useCacheOption o = false) by (unfold Query.useCacheOption; by rewrite Hoff).
  rewrite runQuery_miss by (by rewrite Hc).
  split; [done |]. split; [done |]. split; [done |].
  destruct (Query.isMounted st') eqn:Hlive.
  - destruct res as [v|e].
    + by rewrite runQuery_resume_normal, Hc.
    + rewrite runQuery_resume_throw by done. cbn [world]. by destruct (instanceofError e).
  - by rewrite runQuery_resume_detached.
Qed.

Lemma disabled_cache_is_never_used_witness :
  let w := {| cache := {[ Query.cacheKey Sample.uncachedQuery := VStr "old" ]};
              next_ref := 100 |} in
  trace (Query.runQuery Sample.uncachedQuery Query.initial w)
  = [Publish UseQuery (SetLoading true); Call Sample.getUser [VNum (NInt 7)]]
  /\ cache (world (Query.runQuery_resume Sample.uncachedQuery (Normal (VNum (NInt 42)))
                     Query.initial w)) = cache w.
Proof.
  pose proof (disabled_cache_is_never_used Sample.uncachedQuery (Normal (VNum (NInt 42)))
                Query.initial Query.initial
                {| cache := {[ Query.cacheKey Sample.uncachedQuery := VStr "old" ]};
                   next_ref := 100 |}
                {| cache := {[ Query.cacheKey Sample.uncachedQuery := VStr "old" ]};
                   next_ref := 100 |} eq_refl) as (_ & Ht & _ & Hc).
  exact (conj Ht Hc).
Defined.

(** The liveness flag is one ref shared by all executions of the
    instance, and every run of the effect sets it again. So when the
    effect has re-run after a cleanup (the inputs changed), an execution
    started before the cleanup is no longer held back: on completion it
    publishes its result as [data] (the cell then holds it, a function
    apart) and, with caching enabled, writes it under its own key. *)
Theorem rerun_effect_lets_earlier_execution_publish (o1 o2 : Query.QueryOptions) (v : Value)
    (st : Query.State) (w w1 w2 : World) :
  let cleaned := hook (Query.cleanup st w) in
  let rerun := hook (Query.effect o2 cleaned w1) in
  let r := Query.runQuery_resume o1 (Normal v) rerun w2 in
  Query.isMounted cleaned = false
  /\ Query.isMounted rerun = true
  /\ trace r = Publish UseQuery (SetData v)
               :: (if Query.useCacheOption o1 then [CacheSet (Query.cacheKey o1) v] else [])
               ++ [Publish UseQuery (SetLoading false)]
  /\ (isFunction v = false -> Query.data (hook r) = v)
  /\ cache (world r) = if Query.useCacheOption o1
                       then <[Query.cacheKey o1 := v]> (cache w2) else cache w2.
Proof.
  cbv zeta.
  assert (Hlive : Query.isMounted (hook (Query.effect o2 (hook (Query.cleanup st w)) w1))
                  = true).
  { destruct (runQuery_cases o2
                {| Query.data := Query.data (hook (Query.cleanup st w));
                   Query.loading := Query.loading (hook (Query.cleanup st w));
                   Query.error := Query.error (hook (Query.cleanup st w));
                   Query.isMounted := true |} w1) as [(x & _ & _ & E)|[_ E]];
      rewrite <- effect_eq in E; by rewrite E. }
  split; [by destruct st |]. split; [exact Hlive |].
  rewrite runQuery_resume_normal by exact Hlive. cbn [trace hook world].
  split; [reflexivity |]. split; [intros _; reflexivity |].
  by destruct (Query.useCacheOption o1).
Qed.

Lemma rerun_effect_lets_earlier_execution_publish_witness :
  let changed := {| Query.fn := Sample.getUser; Query.callerArgs := Some [VNum (NInt 8)];
                    Query.useCache := None; Query.customQueryKey := None |} in
  let r := Query.run [Query.Effect Sample.query; Query.Cleanup; Query.Effect changed;
                      Query.Resume Sample.query (Normal (VStr "seven"))]
             Query.initial Sample.emptyWorld in
  Query.data (hook r) = VStr "seven"
  /\ cache (world r) !! Query.cacheKey Sample.query = Some (VStr "seven").
Proof.
  pose proof (rerun_effect_lets_earlier_execution_publish Sample.query
                {| Query.fn := Sample.getUser; Query.callerArgs := Some [VNum (NInt 8)];
                   Query.useCache := None; Query.customQueryKey := None |}
                (VStr "seven")
                (hook (Query.effect Sample.query Query.initial Sample.emptyWorld))
                Sample.emptyWorld Sample.emptyWorld Sample.emptyWorld)
    as (_ & _ & _ & Hdata & Hcache).
  split; [exact (Hdata eq_refl) |].
  exact (f_equal (fun c => c !! Query.cacheKey Sample.query) Hcache).
Defined.

(** The cache is shared by the hooks: what a mutation or a suspense query
    has written under a key is served by the next [useQuery] execution
    for that key: it publishes that value as data and then
    [loading = false], does not call its own producer, whichever producer
    and arguments it has, and leaves the world as it is; its [data] cell
    then holds the value (a value that is not a function). *)
Theorem useQuery_serves_what_other_hooks_cached (om : Mutation.MutationOptions)
    (args : list Value) (os oq : Query.QueryOptions) (v : Value)
    (stm : Mutation.State) (sts : Suspense.State) (stq : Query.State) (w : World) :
  Query.useCacheOption oq = true ->
  let m := Mutation.mutateFn_resume om args (Normal v) stm w in
  let s := Suspense.fetch_resume os (Normal v) sts w in
  let served (r : Result Query.State Query.Phase) (w0 : World) :=
    completion r = Normal Query.Settled
    /\ trace r = [Publish UseQuery (SetData v); Publish UseQuery (SetLoading false)]
    /\ noCall (trace r)
    /\ world r = w0
    /\ (isFunction v = false -> Query.data (hook r) = v) in
  (Mutation.useCacheOption om = true ->
   Mutation.isMounted stm = true ->
   fst (callbackOutcome (Mutation.onSuccess om) v w) = Normal tt ->
   Query.cacheKey oq = Mutation.cacheKey om args ->
   served (Query.runQuery oq stq (world m)) (world m))
  /\ (Query.useCacheOption os = true ->
      Suspense.isMounted sts = true ->
      Query.cacheKey oq = Query.cacheKey os ->
      served (Query.runQuery oq stq (world s)) (world s)).
Proof.
  intros Hq m s served. subst m s served.
  assert (Hhit : forall w0, cache w0 !! Query.cacheKey oq = Some v ->
            completion (Query.runQuery oq stq w0) = Normal Query.Settled
            /\ trace (Query.runQuery oq stq w0)
               = [Publish UseQuery (SetData v); Publish UseQuery (SetLoading false)]
            /\ noCall (trace (Query.runQuery oq stq w0))
            /\ world (Query.runQuery oq stq w0) = w0
            /\ (isFunction v = false -> Query.data (hook (Query.runQuery oq stq w0)) = v)).
  { intros w0 Hk. rewrite (runQuery_hit oq v stq w0 Hq Hk).
    split; [reflexivity |]. split; [reflexivity |].
    split; [apply (noCall_publications UseQuery [SetData v; SetLoading false]) |].
    split; [reflexivity |]. intros _. reflexivity. }
  split.
  - intros Hm Hlive Hcb Hk. apply Hhit.
    pose proof (mutateFn_resume_normal om args v stm w Hlive) as (_ & _ & H).
    rewrite Hcb, Hm in H. destruct H as [-> _]. rewrite Hk. apply lookup_insert_eq.
  - intros Hs Hlive Hk. apply Hhit.
    rewrite fetch_resume_normal, Hs, Hk by done. apply lookup_insert_eq.
Qed.

Lemma useQuery_serves_what_other_hooks_cached_witness :
  let oq := {| Query.fn := Sample.getUser; Query.callerArgs := None;
               Query.useCache := None; Query.customQueryKey := Some "k1" |} in
  let m := Mutation.mutateFn_resume Sample.mutation [VNum (NInt 7)] (Normal (VStr "saved"))
             Mutation.initial Sample.emptyWorld in
  trace (Query.runQuery oq Query.initial (world m))
  = [Publish UseQuery (SetData (VStr "saved")); Publish UseQuery (SetLoading false)]
  /\ Query.data (hook (Query.runQuery oq Query.initial (world m))) = VStr "saved".
Proof.
  pose proof (proj1 (useQuery_serves_what_other_hooks_cached Sample.mutation [VNum (NInt 7)]
                       Sample.query
                       {| Query.fn := Sample.getUser; Query.callerArgs := None;
                          Query.useCache := None; Query.customQueryKey := Some "k1" |}
                       (VStr "saved") Mutation.initial Suspense.initial Query.initial
                       Sample.emptyWorld eq_refl)
                eq_refl eq_refl eq_refl eq_refl) as (_ & Htrace & _ & _ & Hdata).
  exact (conj Htrace (Hdata eq_refl)).
Defined.

(** ** useAsyncComponent *)

Lemma error_is_truthy (e : Value) :
  instanceofError e = true -> AsyncComponent.truthy e = true.
Proof. by destruct e. Qed.

(** Once a run of the wrapped component function has failed, the
    component never renders its data again, whatever happens afterwards
    (refetches, successful completions, cache hits): the stale error is
    tested before the data. *)
Theorem failed_component_never_shows_data (options : option AsyncComponent.AsyncComponentOptions)
    (acts : list Query.Action) (st : Query.State) (w : World) (v : Value) :
  instanceofError (Query.error st) = true ->
  AsyncComponent.Comp options (hook (Query.run acts st w)) <> AsyncComponent.Node v.
Proof.
  intros Herr.
  pose proof (error_is_truthy _ (useQuery_error_is_never_reset acts st w Herr)) as Ht.
  unfold AsyncComponent.Comp. rewrite Ht.
  destruct (Query.loading _); [discriminate |].
  by destruct options as [[fb [b|]]|].
Qed.

Lemma failed_component_never_shows_data_witness :
  let fn := Sample.getUser in
  let o := AsyncComponent.queryOptions fn (VObj 3 [("id", VNum (NInt 7))]) in
  let r := Query.run [Query.Effect o; Query.Resume o (Throw (VStr "boom"));
                      Query.Refetch o; Query.Resume o (Normal (VStr "<User/>"))]
             Query.initial Sample.emptyWorld in
  Query.data (hook r) = VStr "<User/>"
  /\ AsyncComponent.Comp (Some {| AsyncComponent.fallback := VUndefined;
                                  AsyncComponent.errorBoundary := Some 9 |}) (hook r)
     <> AsyncComponent.Node (VStr "<User/>").
Proof.
  split; [vm_compute; reflexivity |].
  pose proof (failed_component_never_shows_data
                (Some {| AsyncComponent.fallback := VUndefined;
                         AsyncComponent.errorBoundary := Some 9 |})
                [Query.Refetch (AsyncComponent.queryOptions Sample.getUser
                                  (VObj 3 [("id", VNum (NInt 7))]));
                 Query.Resume (AsyncComponent.queryOptions Sample.getUser
                                 (VObj 3 [("id", VNum (NInt 7))]))
                   (Normal (VStr "<User/>"))]
                (hook (Query.run
                         [Query.Effect (AsyncComponent.queryOptions Sample.getUser
                                          (VObj 3 [("id", VNum (NInt 7))]));
                          Query.Resume (AsyncComponent.queryOptions Sample.getUser
                                          (VObj 3 [("id", VNum (NInt 7))]))
                            (Throw (VStr "boom"))]
                         Query.initial Sample.emptyWorld))
                (world (Query.run
                          [Query.Effect (AsyncComponent.queryOptions Sample.getUser
                                           (VObj 3 [("id", VNum (NInt 7))]));
                           Query.Resume (AsyncComponent.queryOptions Sample.getUser
                                           (VObj 3 [("id", VNum (NInt 7))]))
                             (Throw (VStr "boom"))]
                          Query.initial Sample.emptyWorld))
                (VStr "<User/>") eq_refl) as H.
  exact H.
Defined.

(** What the component renders once a run has completed successfully
    with nothing failed before: the resolved value when it is truthy, an
    empty fragment when it is falsy (0, the empty string, [false],
    [null], [NaN], [undefined]), as if nothing had been resolved. While
    the run is pending it renders the fallback, or an empty fragment when
    there is none. *)
Theorem component_renders_truthy_data_only (options : option AsyncComponent.AsyncComponentOptions)
    (o : Query.QueryOptions) (v : Value) (st st' : Query.State) (w w' : World) :
  Query.useCacheOption o && bool_decide (is_Some (cache w !! Query.cacheKey o)) = false ->
  Query.isMounted st' = true ->
  AsyncComponent.truthy (Query.error st') = false ->
  let pending := hook (Query.runQuery o st w) in
  let done := hook (Query.runQuery_resume o (Normal v) st' w') in
  AsyncComponent.Comp options pending
  = AsyncComponent.Fragment
      match options with
      | Some opts => if AsyncComponent.nullish (AsyncComponent.fallback opts)
                     then AsyncComponent.EmptyFragment
                     else AsyncComponent.Node (AsyncComponent.fallback opts)
      | None => AsyncComponent.EmptyFragment
      end
  /\ AsyncComponent.Comp options done
     = if AsyncComponent.truthy v then AsyncComponent.Node v
       else AsyncComponent.Fragment (AsyncComponent.Node VNull).
Proof.
  intros Hmiss Hlive Herr pending done. subst pending done.
  rewrite runQuery_miss, runQuery_resume_normal by done.
  unfold AsyncComponent.Comp. cbn [hook Query.loading Query.error Query.data].
  rewrite Herr. split; [by destruct options |]. reflexivity.
Qed.

Lemma component_renders_truthy_data_only_witness :
  let o := AsyncComponent.queryOptions Sample.getUser VNull in
  AsyncComponent.Comp None
    (hook (Query.runQuery_resume o (Normal (VNum (NInt 0)))
             (hook (Query.effect o Query.initial Sample.emptyWorld)) Sample.emptyWorld))
  = AsyncComponent.Fragment (AsyncComponent.Node VNull).
Proof.
  exact (proj2 (component_renders_truthy_data_only None
                  (AsyncComponent.queryOptions Sample.getUser VNull) (VNum (NInt 0))
                  Query.initial
                  (hook (Query.effect (AsyncComponent.queryOptions Sample.getUser VNull)
                           Query.initial Sample.emptyWorld))
                  Sample.emptyWorld Sample.emptyWorld eq_refl eq_refl eq_refl)).
Defined.

(** ** useMutation *)

Lemma mutateFn_resume_normal_trace (o : Mutation.MutationOptions) (args : list Value)
    (v : Value) (st : Mutation.State) (w : World) :
  Mutation.isMounted st = true ->
  let out := callbackOutcome (Mutation.onSuccess o) v w in
  trace (Mutation.mutateFn_resume o args (Normal v) st w)
  = Publish UseMutation (SetData v)
    :: match Mutation.onSuccess o with
       | Some _ => [OnSuccess v]
       | None => []
       end
    ++ match fst out with
       | Normal _ =>
           if Mutation.useCacheOption o then [CacheSet (Mutation.cacheKey o args) v] else []
       | Throw e => [Publish UseMutation (SetError (normalized e (snd out)))]
       end
    ++ [Publish UseMutation (SetLoading false);
        Publish UseAsync (SetData VUndefined); Publish UseAsync (SetLoading false)].
Proof.
  destruct st as [d l err m mm wr]. simpl. intros ->. unfold callbackOutcome.
  destruct (Mutation.onSuccess o) as [cb|] eqn:Ho.
  - destruct (cb_run cb v w) as [[[]|e] w'] eqn:Hcb.
    + destruct (Mutation.useCacheOption o) eqn:Hc;
        exec_eval; rewrite Ho; exec_eval; rewrite Hcb; exec_eval; rewrite Hc; exec_eval;
        reflexivity.
    + unfold normalized. destruct (instanceofError e) eqn:He;
        exec_eval; rewrite Ho; exec_eval; rewrite Hcb; exec_eval; rewrite He; exec_eval;
        reflexivity.
  - destruct (Mutation.useCacheOption o) eqn:Hc;
      exec_eval; rewrite Ho; exec_eval; rewrite Hc; exec_eval; reflexivity.
Qed.

(** [onSuccess] is called once per successful mutation, with the
    resolved value, after [data] has been published and before the cache
    is written: whatever the callback does to the mutation's own key is
    overwritten by the write-through, and whatever it does to any other
    key stays. It is not called when the producer fails. *)
Theorem onSuccess_runs_between_data_and_cache (o : Mutation.MutationOptions)
    (cb : Callback) (args : list Value) (v e : Value) (st st' : Mutation.State)
    (w w' : World) :
  Mutation.isMounted st = true ->
  Mutation.onSuccess o = Some cb ->
  cb_run cb v w = (Normal tt, w') ->
  Mutation.useCacheOption o = true ->
  let key := Mutation.cacheKey o args in
  let r := Mutation.mutateFn_resume o args (Normal v) st w in
  trace r = [Publish UseMutation (SetData v); OnSuccess v; CacheSet key v;
             Publish UseMutation (SetLoading false);
             Publish UseAsync (SetData VUndefined); Publish UseAsync (SetLoading false)]
  /\ cache (world r) !! key = Some v
  /\ (forall k, k <> key -> cache (world r) !! k = cache w' !! k)
  /\ (forall x, OnSuccess x ∉ trace (Mutation.mutateFn_resume o args (Throw e) st' w)).
Proof.
  intros Hlive Ho Hcb Hc key r. subst key r.
  pose proof (mutateFn_resume_normal_trace o args v st w Hlive) as Ht.
  pose proof (mutateFn_resume_normal o args v st w Hlive) as (_ & _ & Hw).
  cbv zeta in Ht, Hw. unfold callbackOutcome in Ht, Hw. rewrite Ho, Hcb in Ht, Hw.
  cbn [fst snd] in Ht, Hw. rewrite Hc in Ht, Hw. destruct Hw as [Hw _].
  split; [exact Ht |]. rewrite Hw.
  split; [apply lookup_insert_eq |]. split.
  - intros k Hne. by apply lookup_insert_ne.
  - intros x. destruct (Mutation.isMounted st') eqn:Hlive'.
    + destruct (mutateFn_resume_throw o args e st' w Hlive') as (-> & _). not_in_log.
    + destruct (mutateFn_resume_detached o args (Throw e) st' w Hlive') as (-> & _).
      not_in_log.
Qed.

Lemma onSuccess_runs_between_data_and_cache_witness :
  let o := {| Mutation.fn := Sample.saveUser; Mutation.useCache := None;
              Mutation.customQueryKey := Some "k1";
              Mutation.onSuccess := Some invalidatingCallback |} in
  let w := {| cache := {[ "k1" := VStr "old"; "users" := VArr 1 [] ]}; next_ref := 100 |} in
  let r := Mutation.mutateFn_resume o [VNum (NInt 7)] (Normal (VStr "saved"))
             Mutation.initial w in
  cache (world r) !! "k1" = Some (VStr "saved").
Proof.
  exact (proj1 (proj2 (onSuccess_runs_between_data_and_cache
                         {| Mutation.fn := Sample.saveUser; Mutation.useCache := None;
                            Mutation.customQueryKey := Some "k1";
                            Mutation.onSuccess := Some invalidatingCallback |}
                         invalidatingCallback [VNum (NInt 7)] (VStr "saved") VNull
                         Mutation.initial Mutation.initial
                         {| cache := {[ "k1" := VStr "old"; "users" := VArr 1 [] ]};
                            next_ref := 100 |}
                         {| cache := delete "k1" (delete "users"
                                       {[ "k1" := VStr "old"; "users" := VArr 1 [] ]});
                            next_ref := 100 |}
                         eq_refl eq_refl eq_refl eq_refl))).
Defined.

(** When [onSuccess] throws, the mutation is reported as failed although
    its result has already been published: [data] holds the resolved
    value (a value that is not a function), [error] the normalized thrown
    value, the cache is not written (it keeps what the callback left),
    and [loading] ends [false]. *)
Theorem throwing_onSuccess_fails_the_mutation (o : Mutation.MutationOptions)
    (cb : Callback) (args : list Value) (v e : Value) (st : Mutation.State)
    (w w' : World) :
  Mutation.isMounted st = true ->
  Mutation.onSuccess o = Some cb ->
  cb_run cb v w = (Throw e, w') ->
  let r := Mutation.mutateFn_resume o args (Normal v) st w in
  trace r = [Publish UseMutation (SetData v); OnSuccess v;
             Publish UseMutation (SetError (normalized e w'));
             Publish UseMutation (SetLoading false);
             Publish UseAsync (SetData VUndefined); Publish UseAsync (SetLoading false)]
  /\ (isFunction v = false -> Mutation.data (hook r) = v)
  /\ Mutation.error (hook r) = normalized e w'
  /\ Mutation.loading (hook r) = false
  /\ cache (world r) = cache w'.
Proof.
  intros Hlive Ho Hcb r. subst r.
  pose proof (mutateFn_resume_normal_trace o args v st w Hlive) as Ht.
  pose proof (mutateFn_resume_normal o args v st w Hlive) as (Hd & Hl & Hw).
  cbv zeta in Ht, Hw. unfold callbackOutcome in Ht, Hw. rewrite Ho, Hcb in Ht, Hw.
  cbn [fst snd] in Ht, Hw. destruct Hw as [Hw He].
  split; [exact Ht |]. split; [intros _; exact Hd |]. done.
Qed.

Lemma throwing_onSuccess_fails_the_mutation_witness :
  let o := {| Mutation.fn := Sample.saveUser; Mutation.useCache := None;
              Mutation.customQueryKey := Some "k1";
              Mutation.onSuccess := Some throwingCallback |} in
  let r := Mutation.mutateFn_resume o [] (Normal (VStr "saved")) Mutation.initial
             Sample.emptyWorld in
  Mutation.data (hook r) = VStr "saved"
  /\ Mutation.error (hook r) = VError 100 unexpectedMessage
  /\ cache (world r) !! "k1" = None.
Proof.
  pose proof (throwing_onSuccess_fails_the_mutation
                {| Mutation.fn := Sample.saveUser; Mutation.useCache := None;
                   Mutation.customQueryKey := Some "k1";
                   Mutation.onSuccess := Some throwingCallback |}
                throwingCallback [] (VStr "saved") (VStr "callback failed")
                Mutation.initial Sample.emptyWorld Sample.emptyWorld
                eq_refl eq_refl eq_refl) as (_ & Hd & He & _ & Hc).
  split; [exact (Hd eq_refl) |]. split; [exact He |]. rewrite Hc. reflexivity.
Defined.

(** ** One [useMutation] instance over time *)

Lemma useMutation_effect (o : Mutation.MutationOptions) (st : Mutation.State) (w : World) :
  let r := Mutation.useMutation o st w in
  exists cb,
    completion r = Normal cb
    /\ Mutation.data (hook r) = Mutation.data st
    /\ Mutation.loading (hook r) = Mutation.loading st
    /\ Mutation.error (hook r) = Mutation.error st
    /\ Mutation.isMounted (hook r) = Mutation.isMounted st
    /\ cache (world r) = cache w
    /\ Async.data (Mutation.wrapper (hook r)) = Async.data (Mutation.wrapper st)
    /\ Async.memo (Mutation.wrapper (hook r)) = Some cb
    /\ (Async.captured_data cb = Async.data (Mutation.wrapper st)
        \/ exists old, Async.memo (Mutation.wrapper st) = Some old
                       /\ Async.captured_data cb = Async.captured_data old).
Proof.
  destruct st as [d l e m mm [wd wl we wm]]. cbv zeta. exec_eval.
  destruct mm as [old_mutate|]; destruct wm as [old|];
    repeat match goal with
           | |- context [if ?b then _ else _] => destruct b
           end;
    eexists; repeat split; eauto.
Qed.

Lemma mutateFn_effect (o : Mutation.MutationOptions) (cb : Async.SyncFn)
    (args : list Value) (st : Mutation.State) (w : World) :
  let r := Mutation.mutateFn o cb args st w in
  completion r = Normal (Async.captured_data cb)
  /\ Mutation.data (hook r) = Mutation.data st
  /\ Mutation.loading (hook r)
     = (if Mutation.isMounted st then true else Mutation.loading st)
  /\ Mutation.error (hook r) = Mutation.error st
  /\ Mutation.isMounted (hook r) = Mutation.isMounted st
  /\ world r = w
  /\ Async.data (Mutation.wrapper (hook r)) = Async.data (Mutation.wrapper st)
  /\ Async.memo (Mutation.wrapper (hook r)) = Async.memo (Mutation.wrapper st).
Proof.
  destruct st as [d l e [|] mm [wd wl we wm]]; cbv zeta; exec_eval; repeat split.
Qed.

Lemma mutateFn_resume_effect (o : Mutation.MutationOptions) (args : list Value)
    (res : Completion Value) (st : Mutation.State) (w : World) :
  let r := Mutation.mutateFn_resume o args res st w in
  completion r = Normal tt
  /\ Mutation.isMounted (hook r) = Mutation.isMounted st
  /\ Async.data (Mutation.wrapper (hook r)) = VUndefined
  /\ Async.memo (Mutation.wrapper (hook r)) = Async.memo (Mutation.wrapper st).
Proof.
  cbv zeta. destruct st as [d l err [|] mm [wd wl we wm]], res as [v|e].
  - destruct (Mutation.onSuccess o) as [cb|] eqn:Ho.
    + destruct (cb_run cb v w) as [[[]|ex] w'] eqn:Hcb.
      * destruct (Mutation.useCacheOption o) eqn:Hc;
          exec_eval; rewrite Ho; exec_eval; rewrite Hcb; exec_eval; rewrite Hc; exec_eval;
          repeat split.
      * destruct (instanceofError ex) eqn:He;
          exec_eval; rewrite Ho; exec_eval; rewrite Hcb; exec_eval; rewrite He; exec_eval;
          repeat split.
    + destruct (Mutation.useCacheOption o) eqn:Hc;
        exec_eval; rewrite Ho; exec_eval; rewrite Hc; exec_eval; repeat split.
  - destruct (instanceofError e) eqn:He; exec_eval; rewrite He; exec_eval; repeat split.
  - exec_eval. repeat split.
  - exec_eval. repeat split.
Qed.

(** One step of the machine: it completes, it keeps the wrapper empty,
    and a call returns [undefined] when the wrapper is empty. *)
Lemma mutation_step_effect (a : MutationMachine.Action) (st : Mutation.State) (w : World) :
  let r := MutationMachine.step a st w in
  exists x,
    completion r = Normal x
    /\ (wrapperHoldsNothing st -> x = VUndefined /\ wrapperHoldsNothing (hook r))
    /\ (Mutation.isMounted st = false ->
        Mutation.isMounted (hook r) = false
        /\ Mutation.data (hook r) = Mutation.data st
        /\ Mutation.loading (hook r) = Mutation.loading st
        /\ Mutation.error (hook r) = Mutation.error st
        /\ cache (world r) = cache w).
Proof.
  cbv zeta. destruct a as [o|o args|o args res|]; cbn [MutationMachine.step].
  - destruct (useMutation_effect o st w) as (cb & Hc & Hd & Hl & He & Hm & Hw & Hwd & Hmemo & Hcap).
    cbv zeta in *. destruct (Mutation.useMutation o st w) as [c st1 w1 t1] eqn:E.
    cbn [completion hook world] in *. subst c.
    rewrite (bind_normal _ _ _ _ _ _ _ _ E). unfold ret. cbn [completion hook world].
    exists VUndefined. split; [done |]. split.
    + intros [Hdata Hold]. split; [done |]. split; [congruence |].
      intros cb' Hcb'. rewrite Hmemo in Hcb'. injection Hcb' as <-.
      destruct Hcap as [->|(old & Hmo & ->)]; [done | by apply Hold].
    + intros Hdead. repeat split; congruence.
  - destruct (useMutation_effect o st w) as (cb & Hc & Hd & Hl & He & Hm & Hw & Hwd & Hmemo & Hcap).
    cbv zeta in *. destruct (Mutation.useMutation o st w) as [c st1 w1 t1] eqn:E.
    cbn [completion hook world] in *. subst c.
    rewrite (bind_normal _ _ _ _ _ _ _ _ E). cbn [completion hook world].
    destruct (mutateFn_effect o cb args st1 w1)
      as (Hc' & Hd' & Hl' & He' & Hm' & Hw' & Hwd' & Hmemo').
    cbv zeta in *. exists (Async.captured_data cb). split; [done |]. split.
    + intros [Hdata Hold].
      assert (Hcb : Async.captured_data cb = VUndefined).
      { destruct Hcap as [->|(old & Hmo & ->)]; [done | by apply Hold]. }
      split; [done |]. split; [congruence |].
      intros cb' Hcb'. rewrite Hmemo', Hmemo in Hcb'. by injection Hcb' as <-.
    + intros Hdead. rewrite Hm', Hd', Hl', He', Hw'.
      rewrite Hm, Hdead. repeat split; congruence.
  - destruct (mutateFn_resume_effect o args res st w) as (Hc & Hm & Hwd & Hmemo).
    cbv zeta in *.
    destruct (Mutation.mutateFn_resume o args res st w) as [c st1 w1 t1] eqn:E.
    cbn [completion hook world] in *. subst c.
    rewrite (bind_normal _ _ _ _ _ _ _ _ E). unfold ret. cbn [completion hook world].
    exists VUndefined. split; [done |]. split.
    + intros [Hdata Hold]. split; [done |]. split; [done |].
      intros cb' Hcb'. rewrite Hmemo in Hcb'. by apply Hold.
    + intros Hdead.
      destruct (mutateFn_resume_detached o args res st w Hdead) as (_ & Hw & Hd & Hl & He).
      cbv zeta in *. rewrite E in Hw, Hd, Hl, He. cbn [hook world] in *.
      repeat split; congruence.
  - exists VUndefined. destruct st as [d l e m mm wr]. exec_eval.
    split; [reflexivity |]. split; [intros H; split; [reflexivity | exact H] |].
    intros _. repeat split.
Qed.

Lemma mutation_run_cons (a : MutationMachine.Action) (acts : list MutationMachine.Action)
    (st : Mutation.State) (w : World) :
  let r1 := MutationMachine.step a st w in
  let r := MutationMachine.run acts (hook r1) (world r1) in
  MutationMachine.run (a :: acts) st w
  = mkResult (completion r) (hook r) (world r) (trace r1 ++ trace r).
Proof.
  cbv zeta. cbn [MutationMachine.run].
  destruct (mutation_step_effect a st w) as (x & Hc & _). cbv zeta in Hc.
  destruct (MutationMachine.step a st w) as [c st1 w1 t1] eqn:E.
  cbn [completion] in Hc. subst c. by rewrite (bind_normal _ _ _ _ _ _ _ _ E).
Qed.

Lemma mutation_run_preserves (P : Mutation.State -> World -> Prop)
    (acts : list MutationMachine.Action) :
  (forall a st w, P st w -> P (hook (MutationMachine.step a st w))
                              (world (MutationMachine.step a st w))) ->
  forall st w, P st w ->
    completion (MutationMachine.run acts st w) = Normal tt
    /\ P (hook (MutationMachine.run acts st w)) (world (MutationMachine.run acts st w)).
Proof.
  intros Hstep. induction acts as [|a acts IH]; intros st w HP.
  - by split.
  - rewrite mutation_run_cons. cbn [completion hook world]. apply IH. by apply Hstep.
Qed.

(** The function returned as [mutate] returns [undefined] on every call,
    whatever has happened to the instance since it was mounted (renders
    with other options, earlier calls, completions, the cleanup): the
    wrapped [mutate] resolves to nothing, so there is never any data for
    the wrapper to hand back. *)
Theorem mutate_always_returns_undefined (acts : list MutationMachine.Action)
    (o : Mutation.MutationOptions) (args : list Value) (w : World) :
  completion ((MutationMachine.run acts ;; MutationMachine.step (MutationMachine.Mutate o args))
                Mutation.initial w)
  = Normal VUndefined.
Proof.
  destruct (mutation_run_preserves (fun st _ => wrapperHoldsNothing st) acts)
    with (st := Mutation.initial) (w := w) as [Hc Hinv].
  - intros a st w' HP. destruct (mutation_step_effect a st w') as (x & _ & H & _).
    by apply H.
  - split; [done |]. intros cb Hcb. discriminate.
  - destruct (MutationMachine.run acts Mutation.initial w) as [c st1 w1 t1] eqn:E.
    cbn [completion hook] in *. subst c. rewrite (bind_normal _ _ _ _ _ _ _ _ E).
    cbn [completion].
    destruct (mutation_step_effect (MutationMachine.Mutate o args) st1 w1)
      as (x & Hx & H & _).
    cbv zeta in *. rewrite Hx. f_equal. by apply H.
Qed.

(** [useMutation] never sets its liveness flag again. Once the cleanup
    has run, nothing that happens to the instance afterwards (renders,
    [mutate] calls, completions of producers) changes its [data],
    [loading] and [error] cells or the cache: the outcome of every later
    [mutate] call is dropped. *)
Theorem unmounted_mutation_is_frozen (acts : list MutationMachine.Action)
    (st : Mutation.State) (w w' : World) :
  let detached := hook (Mutation.cleanup st w) in
  let r := MutationMachine.run acts detached w' in
  Mutation.isMounted (hook r) = false
  /\ Mutation.data (hook r) = Mutation.data st
  /\ Mutation.loading (hook r) = Mutation.loading st
  /\ Mutation.error (hook r) = Mutation.error st
  /\ cache (world r) = cache w'.
Proof.
  cbv zeta.
  destruct (mutation_run_preserves
              (fun s x => Mutation.isMounted s = false
                          /\ Mutation.data s = Mutation.data st
                          /\ Mutation.loading s = Mutation.loading st
                          /\ Mutation.error s = Mutation.error st
                          /\ cache x = cache w') acts)
    with (st := hook (Mutation.cleanup st w)) (w := w') as [_ H].
  - intros a s x (Hm & Hd & Hl & He & Hw).
    destruct (mutation_step_effect a s x) as (y & _ & _ & H). cbv zeta in H.
    destruct (H Hm) as (-> & -> & -> & -> & ->). done.
  - by destruct st.
  - exact H.
Qed.

(** ** One [useAsync] instance over time *)

(** What a render of [useAsync(fn)] returns and leaves behind. *)
Lemma render_effect (fn : QueryFn) (st : Async.State) (w : World) :
  let r := Async.render fn st w in
  exists cb,
    completion r = Normal cb
    /\ world r = w
    /\ Async.data (hook r) = Async.data st
    /\ Async.loading (hook r) = Async.loading st
    /\ Async.error (hook r) = Async.error st
    /\ Async.memo (hook r) = Some cb
    /\ Async.wraps cb = fn_ref fn
    /\ Async.state cb = {| Async.state_error := Async.error st;
                           Async.state_loading := Async.loading st |}
    /\ Async.captured_data cb
       = match Async.memo st with
         | Some old => if Nat.eqb (Async.wraps old) (fn_ref fn)
                       then Async.captured_data old else Async.data st
         | None => Async.data st
         end.
Proof.
  destruct st as [d l e [old|]]; cbv zeta; exec_eval.
  - destruct (Nat.eqb (Async.wraps old) (fn_ref fn)) eqn:Heq;
      eexists; repeat split. by apply Nat.eqb_eq.
  - eexists. repeat split.
Qed.

(** The record attached to the function [useAsync] returns holds the
    [error] and [loading] of the current render on every render, also
    when the function itself is the memoized one, whose return value is
    the [data] of the render that created it. *)
Theorem useAsync_attaches_current_state (fn : QueryFn) (st : Async.State) (w : World) :
  let cb := Sample.returned (Async.render fn st w) in
  Async.state cb = {| Async.state_error := Async.error st;
                      Async.state_loading := Async.loading st |}
  /\ Async.wraps cb = fn_ref fn
  /\ Async.captured_data cb
     = match Async.memo st with
       | Some old => if Nat.eqb (Async.wraps old) (fn_ref fn)
                     then Async.captured_data old else Async.data st
       | None => Async.data st
       end
  /\ completion (Async.invoke fn cb [] (hook (Async.render fn st w)) w)
     = Normal (Async.captured_data cb).
Proof.
  cbv zeta. destruct (render_effect fn st w) as (cb & Hc & _ & _ & _ & _ & _ & Hw & Hs & Hd).
  cbv zeta in *. unfold Sample.returned. rewrite Hc, invoke_eq. done.
Qed.

(** Every call of a function wrapped by [useAsync] first sets [error]
    back to [undefined] and [loading] to [true], and calls the producer.
    When the producer has completed, the rest of the call runs in the
    state it finds, which other calls may have changed in the meantime.
    On success it stores the result as [data] (a result that is not a
    function) and does not touch [error]: the cell keeps the error of
    another call that failed since this one started, and is [undefined]
    when nothing happened in between. On failure it stores the
    normalized error and leaves [data] as it finds it. In both cases
    [loading] ends [false], also when another call is still pending. *)
Theorem useAsync_call_resets_error (fn : QueryFn) (cb : Async.SyncFn) (args : list Value)
    (res : Completion Value) (st st' : Async.State) (w w' : World) :
  let called := Async.invoke fn cb args st w in
  let settled := Async.resume res st' w' in
  let undisturbed := Async.resume res (hook called) (world called) in
  (trace called = [Publish UseAsync (SetError VUndefined); Publish UseAsync (SetLoading true);
                   Call fn args]
   /\ Async.error (hook called) = VUndefined
   /\ Async.loading (hook called) = true
   /\ Async.data (hook called) = Async.data st)
  /\ Async.loading (hook settled) = false
  /\ match res with
     | Normal v =>
         (isFunction v = false -> Async.data (hook settled) = v)
         /\ Async.error (hook settled) = Async.error st'
         /\ Async.error (hook undisturbed) = VUndefined
     | Throw e =>
         Async.data (hook settled) = Async.data st'
         /\ Async.error (hook settled) = normalized e w'
         /\ Async.data (hook undisturbed) = Async.data st
     end.
Proof.
  cbv zeta. rewrite invoke_eq. cbn [hook world trace].
  destruct res as [v|e]; [rewrite !resume_normal | rewrite !resume_throw]; done.
Qed.

Lemma useAsync_call_resets_error_witness :
  let cb := Sample.returned (Async.render Sample.getUser Async.initial Sample.emptyWorld) in
  let r := AsyncMachine.run [AsyncMachine.Invoke Sample.getUser [VNum (NInt 1)];
                             AsyncMachine.Invoke Sample.getUser [VNum (NInt 2)];
                             AsyncMachine.Resume (Throw (VStr "boom"))]
             Async.initial Sample.emptyWorld in
  let settled := Async.resume (Normal (VStr "one")) (hook r) (world r) in
  Async.data (hook settled) = VStr "one"
  /\ Async.error (hook settled) = VError 100 unexpectedMessage
  /\ Async.loading (hook settled) = false.
Proof.
  pose proof (useAsync_call_resets_error Sample.getUser
                (Sample.returned (Async.render Sample.getUser Async.initial Sample.emptyWorld))
                [VNum (NInt 1)] (Normal (VStr "one")) Async.initial
                (hook (AsyncMachine.run [AsyncMachine.Invoke Sample.getUser [VNum (NInt 1)];
                                         AsyncMachine.Invoke Sample.getUser [VNum (NInt 2)];
                                         AsyncMachine.Resume (Throw (VStr "boom"))]
                         Async.initial Sample.emptyWorld))
                Sample.emptyWorld
                (world (AsyncMachine.run [AsyncMachine.Invoke Sample.getUser [VNum (NInt 1)];
                                          AsyncMachine.Invoke Sample.getUser [VNum (NInt 2)];
                                          AsyncMachine.Resume (Throw (VStr "boom"))]
                          Async.initial Sample.emptyWorld)))
    as (_ & Hloading & Hdata & Herror & _).
  exact (conj (Hdata eq_refl) (conj Herror Hloading)).
Defined.

(** One step of the machine with an unchanged [fn]: it completes, the
    memoized closure still wraps [fn] and still holds the same [data],
    and a call returns that [data]. *)
Lemma async_step_effect (fn : QueryFn) (d : Value) (a : AsyncMachine.Action)
    (st : Async.State) (w : World) :
  (forall f, AsyncMachine.wrapped a = Some f -> fn_ref f = fn_ref fn) ->
  (exists cb, Async.memo st = Some cb /\ Async.wraps cb = fn_ref fn
              /\ Async.captured_data cb = d) ->
  let r := AsyncMachine.step a st w in
  (exists x, completion r = Normal x
             /\ (forall f args, a = AsyncMachine.Invoke f args -> x = d))
  /\ exists cb, Async.memo (hook r) = Some cb /\ Async.wraps cb = fn_ref fn
                /\ Async.captured_data cb = d.
Proof.
  intros Hfn (old & Hmemo & Hwraps & Hdata). cbv zeta.
  destruct a as [f|f args|res]; cbn [AsyncMachine.step].
  - destruct (render_effect f st w) as (cb & Hc & _ & _ & _ & _ & Hm & Hw & _ & Hd).
    cbv zeta in *. destruct (Async.render f st w) as [c st1 w1 t1] eqn:E.
    cbn [completion hook] in *. subst c.
    rewrite (bind_normal _ _ _ _ _ _ _ _ E). unfold ret. cbn [completion hook].
    rewrite Hmemo, Hwraps, (Hfn f eq_refl), Nat.eqb_refl in Hd.
    split; [exists VUndefined; by split |].
    exists cb. rewrite Hw, (Hfn f eq_refl), Hd. done.
  - destruct (render_effect f st w) as (cb & Hc & _ & _ & _ & _ & Hm & Hw & _ & Hd).
    cbv zeta in *. destruct (Async.render f st w) as [c st1 w1 t1] eqn:E.
    cbn [completion hook] in *. subst c.
    rewrite (bind_normal _ _ _ _ _ _ _ _ E), invoke_eq. cbn [completion hook Async.memo].
    rewrite Hmemo, Hwraps, (Hfn f eq_refl), Nat.eqb_refl in Hd.
    split; [exists (Async.captured_data cb); split; [done | intros; congruence] |].
    exists cb. rewrite Hw, (Hfn f eq_refl), Hd. done.
  - assert (E : exists t1 w1 e1 d1 l1, Async.resume res st w
                = mkResult (Normal tt)
                    {| Async.data := d1; Async.loading := l1; Async.error := e1;
                       Async.memo := Async.memo st |} w1 t1).
    { destruct res as [v|e]; [rewrite resume_normal | rewrite resume_throw]; eauto 10. }
    destruct E as (t1 & w1 & e1 & d1 & l1 & E).
    rewrite (bind_normal _ _ _ _ _ _ _ _ E). unfold ret. cbn [completion hook Async.memo].
    split; [exists VUndefined; by split |]. eauto.
Qed.

Lemma async_run_stable (fn : QueryFn) (d : Value) (acts : list AsyncMachine.Action) :
  (forall a f, a ∈ acts -> AsyncMachine.wrapped a = Some f -> fn_ref f = fn_ref fn) ->
  forall st w,
    (exists cb, Async.memo st = Some cb /\ Async.wraps cb = fn_ref fn
                /\ Async.captured_data cb = d) ->
    completion (AsyncMachine.run acts st w) = Normal tt
    /\ exists cb, Async.memo (hook (AsyncMachine.run acts st w)) = Some cb
                  /\ Async.wraps cb = fn_ref fn /\ Async.captured_data cb = d.
Proof.
  induction acts as [|a acts IH]; intros Hfn st w Hinv.
  - by split.
  - cbn [AsyncMachine.run].
    destruct (async_step_effect fn d a st w) as [(x & Hx & _) Hinv'];
      [intros f; apply Hfn; by left | done |].
    cbv zeta in *. destruct (AsyncMachine.step a st w) as [c st1 w1 t1] eqn:E.
    cbn [completion hook] in *. subst c. rewrite (bind_normal _ _ _ _ _ _ _ _ E).
    cbn [completion hook]. apply IH; [| done].
    intros a' f Hin. apply Hfn. by right.
Qed.

(** As long as the component passes the same function to [useAsync], the
    function it gets back returns, on every call, the [data] captured by
    the memoized closure: renders, earlier calls and completed runs in
    between do not change what a call returns. *)
Theorem stable_fn_returns_first_capture (fn : QueryFn) (cb : Async.SyncFn)
    (acts : list AsyncMachine.Action) (args : list Value) (st : Async.State) (w : World) :
  Async.memo st = Some cb ->
  Async.wraps cb = fn_ref fn ->
  (forall a f, a ∈ acts -> AsyncMachine.wrapped a = Some f -> fn_ref f = fn_ref fn) ->
  completion ((AsyncMachine.run acts ;; AsyncMachine.step (AsyncMachine.Invoke fn args)) st w)
  = Normal (Async.captured_data cb).
Proof.
  intros Hmemo Hwraps Hfn.
  destruct (async_run_stable fn (Async.captured_data cb) acts Hfn st w) as [Hc Hinv];
    [by exists cb |].
  destruct (AsyncMachine.run acts st w) as [c st1 w1 t1] eqn:E.
  cbn [completion hook] in *. subst c. rewrite (bind_normal _ _ _ _ _ _ _ _ E).
  cbn [completion].
  destruct (async_step_effect fn (Async.captured_data cb) (AsyncMachine.Invoke fn args) st1 w1)
    as [(x & Hx & Hret) _]; [by intros f [= <-] | done |].
  cbv zeta in *. rewrite Hx. f_equal. by apply (Hret fn args).
Qed.

Lemma stable_fn_returns_first_capture_witness :
  let mounted := hook (Async.render Sample.getUser Async.initial Sample.emptyWorld) in
  completion ((AsyncMachine.run [AsyncMachine.Invoke Sample.getUser [];
                                 AsyncMachine.Resume (Normal (VNum (NInt 42)));
                                 AsyncMachine.Render Sample.getUser]
               ;; AsyncMachine.step (AsyncMachine.Invoke Sample.getUser []))
                mounted Sample.emptyWorld)
  = Normal VUndefined.
Proof.
  refine (stable_fn_returns_first_capture Sample.getUser
            (Sample.returned (Async.render Sample.getUser Async.initial Sample.emptyWorld))
            [AsyncMachine.Invoke Sample.getUser [];
             AsyncMachine.Resume (Normal (VNum (NInt 42)));
             AsyncMachine.Render Sample.getUser]
            [] (hook (Async.render Sample.getUser Async.initial Sample.emptyWorld))
            Sample.emptyWorld eq_refl eq_refl _).
  intros a f Hin Hw.
  repeat (apply elem_of_cons in Hin as [->|Hin]; [simpl in Hw; congruence |]).
  by apply elem_of_nil in Hin.
Defined.

(** ** More on cache keys *)

Lemma stringifyArgs_app (pre post : list Value) (x : Value) :
  JSON.stringifyArgs (Some (pre ++ x :: post))
  = Some ("[" +:+ String.concat ","
                    (map (fun v => default "null" (JSON.stringify v)) pre
                     ++ default "null" (JSON.stringify x)
                        :: map (fun v => default "null" (JSON.stringify v)) post)
          +:+ "]").
Proof. unfold JSON.stringifyArgs. cbn [JSON.stringify]. by rewrite map_app. Qed.

(** The key does not tell apart the argument values that [JSON.stringify]
    prints as [null]: in any position of the argument list, [undefined],
    [null], [NaN], the infinities and functions give the same key, so
    that a query for one of them is served what a query for another has
    cached. *)
Theorem generateCacheKey_confuses_nullish_arguments (fn : QueryFn) (pre post : list Value)
    (x y : Value) :
  serializesAsNull x = true ->
  serializesAsNull y = true ->
  generateCacheKey fn (Some (pre ++ x :: post))
  = generateCacheKey fn (Some (pre ++ y :: post)).
Proof.
  unfold generateCacheKey. rewrite !stringifyArgs_app.
  intros Hx Hy.
  assert (Hnull : forall v, serializesAsNull v = true ->
                            default "null" (JSON.stringify v) = "null").
  { intros [ | | | [z| |neg] | | | | | ]; simpl; done. }
  by rewrite (Hnull x Hx), (Hnull y Hy).
Qed.

Lemma generateCacheKey_confuses_nullish_arguments_witness :
  VUndefined <> VNum NNaN
  /\ generateCacheKey Sample.getUser (Some [VNum (NInt 7); VUndefined])
     = generateCacheKey Sample.getUser (Some [VNum (NInt 7); VNum NNaN]).
Proof.
  split; [discriminate |].
  exact (generateCacheKey_confuses_nullish_arguments Sample.getUser [VNum (NInt 7)] []
           VUndefined (VNum NNaN) eq_refl eq_refl).
Defined.

Lemma append_char_inj (s t : string) (c : Ascii.ascii) :
  s +:+ String c EmptyString = t +:+ String c EmptyString -> s = t.
Proof.
  revert t. induction s as [|a s IH]; intros [|b t] H; simpl in H.
  - reflexivity.
  - injection H as _ H. by destruct t.
  - injection H as _ H. by destruct s.
  - injection H as -> H. f_equal. by apply IH.
Qed.

Lemma commaFree_pretty_N_go (x : N) : forall s,
  commaFree s = true -> commaFree (pretty_N_go x s) = true.
Proof.
  induction (N.lt_wf_0 x) as [x _ IH]. intros s Hs.
  destruct (decide (x = 0)%N) as [->|Hpos].
  - by rewrite pretty_N_go_0.
  - rewrite pretty_N_go_step by lia. apply IH.
    + apply N.div_lt; lia.
    + simpl. rewrite Hs. unfold pretty_N_char. by repeat case_match.
Qed.

Lemma pretty_N_go_nonempty (x : N) : forall s,
  s <> EmptyString -> pretty_N_go x s <> EmptyString.
Proof.
  induction (N.lt_wf_0 x) as [x _ IH]. intros s Hs.
  destruct (decide (x = 0)%N) as [->|Hpos].
  - by rewrite pretty_N_go_0.
  - rewrite pretty_N_go_step by lia. apply IH; [apply N.div_lt; lia | done].
Qed.

Lemma pretty_Z_shape (z : Z) :
  commaFree (pretty z) = true /\ pretty z <> EmptyString.
Proof.
  assert (HN : forall n : N, commaFree (pretty n) = true /\ pretty n <> EmptyString).
  { intros n. unfold pretty, pretty_N. case_decide as Hn; [done |].
    split; [by apply commaFree_pretty_N_go |].
    rewrite pretty_N_go_step by lia. by apply pretty_N_go_nonempty. }
  destruct z as [|p|p]; unfold pretty, pretty_Z.
  - done.
  - apply HN.
  - destruct (HN (Npos p)) as [Hc _]. split; [| done]. simpl. exact Hc.
Qed.

(** Two comma-free strings followed by a comma and a rest are equal when
    the whole strings are. *)
Lemma comma_split (x x' r r' : string) :
  commaFree x = true -> commaFree x' = true ->
  x +:+ "," +:+ r = x' +:+ "," +:+ r' -> x = x' /\ r = r'.
Proof.
  revert x'. induction x as [|a x IH]; intros [|b x'] Hx Hx' H; simpl in *.
  - injection H as H. done.
  - injection H as <- _. by rewrite Ascii.eqb_refl in Hx'.
  - injection H as -> _. by rewrite Ascii.eqb_refl in Hx.
  - injection H as -> H.
    apply andb_prop in Hx as [_ Hx]. apply andb_prop in Hx' as [_ Hx'].
    destruct (IH x' Hx Hx' H) as [-> ->]. done.
Qed.

Lemma comma_absent (x x' r : string) :
  commaFree x = true -> x = x' +:+ "," +:+ r -> False.
Proof.
  revert x. induction x' as [|b x' IH]; intros x Hx ->; simpl in Hx.
  - done.
  - apply andb_prop in Hx as [_ Hx]. by apply (IH _ Hx).
Qed.

Lemma concat_comma_inj (l1 : list string) : forall l2,
  Forall (fun s => commaFree s = true /\ s <> EmptyString) l1 ->
  Forall (fun s => commaFree s = true /\ s <> EmptyString) l2 ->
  String.concat "," l1 = String.concat "," l2 -> l1 = l2.
Proof.
  induction l1 as [|x l1 IH]; intros [|y l2] H1 H2 H.
  - reflexivity.
  - apply Forall_cons in H2 as [[_ Hy] _]. destruct l2; cbn in H; [done |].
    by destruct y.
  - apply Forall_cons in H1 as [[_ Hx] _]. destruct l1; cbn in H; [done |].
    by destruct x.
  - apply Forall_cons in H1 as [[Hx _] H1]. apply Forall_cons in H2 as [[Hy _] H2].
    destruct l1 as [|x' l1], l2 as [|y' l2].
    + cbn in H. by subst.
    + cbn [String.concat] in H. by destruct (comma_absent _ _ _ Hx H).
    + cbn [String.concat] in H. symmetry in H. by destruct (comma_absent _ _ _ Hy H).
    + change (x +:+ "," +:+ String.concat "," (x' :: l1)
              = y +:+ "," +:+ String.concat "," (y' :: l2)) in H.
      destruct (comma_split _ _ _ _ Hx Hy H) as [-> Hrest].
      f_equal. by apply IH.
Qed.

Lemma stringify_integerArgs (zs : list Z) :
  map (fun v => default "null" (JSON.stringify v)) (integerArgs zs) = map pretty zs.
Proof. unfold integerArgs. rewrite map_map. reflexivity. Qed.

Lemma map_pretty_inj (zs1 : list Z) : forall zs2, map pretty zs1 = map pretty zs2 -> zs1 = zs2.
Proof.
  induction zs1 as [|a zs1 IH]; intros [|b zs2] H; try discriminate; [done |].
  injection H as Hab H. apply (inj pretty) in Hab as ->. f_equal. by apply IH.
Qed.

Lemma concat_integers_inj (zs1 zs2 : list Z) :
  String.concat "," (map (fun v => default "null" (JSON.stringify v)) (integerArgs zs1))
  = String.concat "," (map (fun v => default "null" (JSON.stringify v)) (integerArgs zs2)) ->
  zs1 = zs2.
Proof.
  rewrite !stringify_integerArgs. intros H. apply map_pretty_inj.
  apply concat_comma_inj; [| | exact H];
    apply Forall_forall; intros s Hs; apply list_elem_of_fmap in Hs as (z & -> & _);
    apply pretty_Z_shape.
Qed.

(** For one producer, two different lists of integer arguments (of
    integers a JavaScript number holds exactly) get different keys: the
    results for different ids, or for different lists of ids, never
    share a cache entry. *)
Theorem integer_arguments_never_collide (fn : QueryFn) (zs1 zs2 : list Z) :
  Forall safeInteger zs1 -> Forall safeInteger zs2 ->
  zs1 <> zs2 ->
  generateCacheKey fn (Some (integerArgs zs1)) <> generateCacheKey fn (Some (integerArgs zs2)).
Proof.
  intros _ _ Hne H. apply Hne.
  unfold generateCacheKey, JSON.stringifyArgs in H. cbn [JSON.stringify] in H.
  apply (inj (String.append _)) in H. apply (inj (String.append _)) in H.
  cbn [templateString default from_option] in H. unfold id in H.
  apply (inj (String.append _)) in H. apply append_char_inj in H.
  by apply concat_integers_inj.
Qed.

Lemma integer_arguments_never_collide_witness :
  (Forall safeInteger [1; 23]%Z /\ Forall safeInteger [12; 3]%Z)
  /\ generateCacheKey Sample.getUser (Some (integerArgs [1; 23]%Z))
     <> generateCacheKey Sample.getUser (Some (integerArgs [12; 3]%Z)).
Proof.
  assert (H1 : Forall safeInteger [1; 23]%Z)
    by (repeat constructor; unfold safeInteger; lia).
  assert (H2 : Forall safeInteger [12; 3]%Z)
    by (repeat constructor; unfold safeInteger; lia).
  split; [by split |].
  apply (integer_arguments_never_collide Sample.getUser [1; 23]%Z [12; 3]%Z H1 H2).
  discriminate.
Defined.

(** ** What the liveness check does not cover, and the lack of deduplication *)

(** After the cleanup the completion of a pending execution publishes
    nothing and leaves the hook state and the world as they are, in
    [useQuery] and in [useSuspenseQuery]. The check guards completions
    only: a [refetch] called after the cleanup still publishes what it
    does before the producer call. *)
Theorem liveness_check_guards_completions_only (o : Query.QueryOptions)
    (res : Completion Value) (stq : Query.State) (sts : Suspense.State) (w w' : World) :
  let dq := hook (Query.cleanup stq w) in
  let ds := hook (Suspense.cleanup sts w) in
  Query.runQuery_resume o res dq w' = mkResult (Normal tt) dq w' []
  /\ Suspense.fetch_resume o res ds w' = mkResult (Normal tt) ds w' []
  /\ (exists p, Publish UseQuery p ∈ trace (Query.refetch o dq w')).
Proof.
  cbv zeta. split; [by apply runQuery_resume_detached |].
  split; [by apply fetch_resume_detached |].
  unfold Query.refetch.
  destruct (runQuery_cases o (hook (Query.cleanup stq w)) w') as [(v & _ & _ & ->)|[_ ->]];
    eexists; left.
Qed.

Lemma producerCalls_app (t1 t2 : list Event) :
  producerCalls (t1 ++ t2) = producerCalls t1 + producerCalls t2.
Proof.
  induction t1 as [|ev t1 IH]; [done |]. destruct ev; simpl; by rewrite IH.
Qed.

(** There is no deduplication of executions in flight: as long as no
    producer has completed and the cache has no entry for the keys
    involved, every run of the effect and every [refetch] calls the
    producer once more, and the cache stays as it is. *)
Theorem every_start_calls_the_producer (acts : list Query.Action) (st : Query.State)
    (w : World) :
  Forall (startsUncached (cache w)) acts ->
  producerCalls (trace (Query.run acts st w)) = executionsStarted acts
  /\ world (Query.run acts st w) = w.
Proof.
  revert st. induction acts as [|a acts IH]; intros st Hacts; [done |].
  apply Forall_cons in Hacts as [Ha Hacts]. rewrite run_cons. cbn [trace world].
  rewrite producerCalls_app.
  assert (Hmiss : forall o, cache w !! Query.cacheKey o = None ->
            Query.useCacheOption o && bool_decide (is_Some (cache w !! Query.cacheKey o))
            = false).
  { intros o ->. rewrite (bool_decide_eq_false_2 (is_Some None)) by (by intros [x Hx]).
    apply andb_false_r. }
  destruct a as [o| |o|o res]; cbn [Query.step startsUncached executionsStarted] in *.
  - pose proof (runQuery_miss o
                  {| Query.data := Query.data st; Query.loading := Query.loading st;
                     Query.error := Query.error st; Query.isMounted := true |}
                  w (Hmiss o Ha)) as E.
    rewrite <- effect_eq in E. rewrite (bind_normal _ _ _ _ _ _ _ _ E).
    unfold ret. cbn [hook world trace].
    match goal with
    | |- context [Query.run acts ?s w] => destruct (IH s Hacts) as [-> ->]
    end. done.
  - destruct (IH (hook (Query.cleanup st w)) Hacts) as [Hn Hw].
    replace (world (Query.cleanup st w)) with w by (by destruct st).
    replace (trace (Query.cleanup st w)) with (@nil Event) by (by destruct st).
    by rewrite Hn, Hw.
  - pose proof (runQuery_miss o st w (Hmiss o Ha)) as E.
    unfold Query.refetch. rewrite (bind_normal _ _ _ _ _ _ _ _ E).
    unfold ret. cbn [hook world trace].
    match goal with
    | |- context [Query.run acts ?s w] => destruct (IH s Hacts) as [-> ->]
    end. done.
  - done.
Qed.

Lemma every_start_calls_the_producer_witness :
  producerCalls (trace (Query.run [Query.Effect Sample.query; Query.Refetch Sample.query;
                                   Query.Refetch Sample.query]
                          Query.initial Sample.emptyWorld)) = 3.
Proof.
  refine (proj1 (every_start_calls_the_producer
                   [Query.Effect Sample.query; Query.Refetch Sample.query;
                    Query.Refetch Sample.query]
                   Query.initial Sample.emptyWorld _)).
  repeat constructor.
Defined.
